(** * Typed errors, their HTTP rendering and the retry driver

    A shallow embedding of the Go package [errors] (the typed error
    [Error], its constructors, the [Is...Error] checkers and
    [Error.ToHTTPResponse]) and of [DoWithRetries] from retry.go,
    followed by the properties stated about them. *)

From Stdlib Require Import String Ascii List ZArith Bool Lia DecimalString.
Import ListNotations.
Local Open Scope string_scope.
Local Open Scope Z_scope.

(** ** Package fmt: the operands the library hands to it *)

Module fmt.

(** Values that travel as [interface{}].  [VStringer s] stands for a value
    of any type carrying an [Error() string] or [String() string] method
    whose result is [s]; this is all that [fmt] observes of it under the
    default format. *)
Inductive value : Type :=
| VNil
| VString (s : string)
| VInt (z : Z)
| VBool (b : bool)
| VStringer (s : string).

(** [fmt.Sprint] of one operand: the operand under its default format. *)
Definition Sprint (v : value) : string :=
  match v with
  | VNil => "<nil>"
  | VString s => s
  | VInt z => NilZero.string_of_int (Z.to_int z)
  | VBool b => if b then "true" else "false"
  | VStringer s => s
  end.

(** A formatter that knows the verbs [%v] and [%%] only: every [%v]
    consumes the next operand and prints it as [Sprint] does, a [%v]
    without operand prints Go's missing-operand marker, operands left over
    are dropped.  On formats whose only verbs are these two, with as many
    [%v] as operands, it agrees with [fmt.Sprintf]; it is the instance on
    which the driver is run below. *)
Fixpoint Sprintf_v (format : string) (a : list value) : string :=
  match format with
  | EmptyString => EmptyString
  | String "%" (String "v" rest) =>
      match a with
      | x :: a' => Sprint x ++ Sprintf_v rest a'
      | [] => "%!v(MISSING)" ++ Sprintf_v rest []
      end
  | String "%" (String "%" rest) => String "%" (Sprintf_v rest a)
  | String c rest => String c (Sprintf_v rest a)
  end.

End fmt.
Import fmt.

(** ** Package net/http: status codes and the response sink *)

Module http.

Definition StatusBadRequest : Z := 400.
Definition StatusUnauthorized : Z := 401.
Definition StatusForbidden : Z := 403.
Definition StatusNotFound : Z := 404.
Definition StatusConflict : Z := 409.
Definition StatusPreconditionFailed : Z := 412.
Definition StatusNotImplemented : Z := 501.
Definition StatusServiceUnavailable : Z := 503.

(** One reply put on the wire by [http.Error]: the status line and the
    body text. *)
Record reply : Type := mkReply { status : Z; body : string }.

(** The sink is observed through the replies written to it, oldest first. *)
Definition ResponseWriter : Type := list reply.

(** [http.Error(w, error, code)] writes one reply. *)
Definition Error (w : ResponseWriter) (error : string) (code : Z)
  : ResponseWriter :=
  (w ++ [mkReply code error])%list.

End http.

(** ** The typed error *)

Record Error : Type := mkError {
  IsAuthErr : bool;
  IsUnauthorizedErr : bool;
  IsForbiddenErr : bool;
  IsClErr : bool;
  IsNotFoundErr : bool;
  IsNotImplementedErr : bool;
  IsRetryableErr : bool;
  IsConflictErr : bool;
  IsPreconditionFailedErr : bool;
  Data : value;
  HttpMsg : string
}.

(** Methods with receiver [Error]. *)
Module Error.

Local Abbreviation receiver := Error (only parsing).

Definition Client (e : Error) : bool := IsClErr e.

Definition NotImplemented (e : Error) : bool := IsNotImplementedErr e.

Definition Auth (e : Error) : bool :=
  IsAuthErr e || IsUnauthorizedErr e || IsForbiddenErr e.

Definition Unauthorized (e : Error) : bool := IsUnauthorizedErr e.

Definition Forbidden (e : Error) : bool := IsForbiddenErr e.

Definition NotFound (e : Error) : bool := IsNotFoundErr e.

Definition Retryable (e : Error) : bool := IsRetryableErr e.

Definition Conflict (e : Error) : bool := IsConflictErr e.

Definition PreconditionFailed (e : Error) : bool := IsPreconditionFailedErr e.

(** [Error()] stringifies the payload. *)
Definition Error (e : Error) : string := Sprint (Data e).

(** [ToHTTPResponse] returns the status, the written flag and the sink
    after the call. *)
Definition ToHTTPResponse (e : receiver) (w : http.ResponseWriter)
  : (Z * bool) * http.ResponseWriter :=
  let msg := HttpMsg e in
  let msg := if String.eqb msg EmptyString then Error e else msg in
  if IsAuthErr e || IsForbiddenErr e || IsUnauthorizedErr e then
    if IsForbiddenErr e then
      ((http.StatusForbidden, true), http.Error w msg http.StatusForbidden)
    else
      ((http.StatusUnauthorized, true),
       http.Error w msg http.StatusUnauthorized)
  else if IsClErr e then
    ((http.StatusBadRequest, true), http.Error w msg http.StatusBadRequest)
  else if IsNotFoundErr e then
    ((http.StatusNotFound, true), http.Error w msg http.StatusNotFound)
  else if IsNotImplementedErr e then
    ((http.StatusNotImplemented, true),
     http.Error w msg http.StatusNotImplemented)
  else if IsRetryableErr e then
    ((http.StatusServiceUnavailable, true),
     http.Error w msg http.StatusServiceUnavailable)
  else if IsConflictErr e then
    ((http.StatusConflict, true), http.Error w msg http.StatusConflict)
  else if IsPreconditionFailedErr e then
    ((http.StatusPreconditionFailed, true),
     http.Error w msg http.StatusPreconditionFailed)
  else
    ((-1, false), w).

End Error.

(** ** Constructors

    The formatted variants go through [fmt.Sprintf], which is not part of
    the package and is taken as given. *)

Section Constructors.

Variable Sprintf : string -> list value -> string.

(** Generic errors. *)
Definition New (data : value) : Error :=
  {| IsAuthErr := false; IsUnauthorizedErr := false; IsForbiddenErr := false;
     IsClErr := false; IsNotFoundErr := false; IsNotImplementedErr := false;
     IsRetryableErr := false; IsConflictErr := false;
     IsPreconditionFailedErr := false;
     Data := data; HttpMsg := EmptyString |}.

Definition Newf (format : string) (a : list value)
  : Error :=
  let data := Sprintf format a in
  New (VString data).

Definition NewWithHttp (httpMsg : string) (data : value)
  : Error :=
  {| IsAuthErr := false; IsUnauthorizedErr := false; IsForbiddenErr := false;
     IsClErr := false; IsNotFoundErr := false; IsNotImplementedErr := false;
     IsRetryableErr := false; IsConflictErr := false;
     IsPreconditionFailedErr := false;
     Data := data; HttpMsg := httpMsg |}.

Definition NewWithHttpf (httpMsg : string) (format : string)
  (a : list value) : Error :=
  let data := Sprintf format a in
  NewWithHttp httpMsg (VString data).

(** Client errors. *)
Definition NewClient (data : value) : Error :=
  {| IsAuthErr := false; IsUnauthorizedErr := false; IsForbiddenErr := false;
     IsClErr := true; IsNotFoundErr := false; IsNotImplementedErr := false;
     IsRetryableErr := false; IsConflictErr := false;
     IsPreconditionFailedErr := false;
     Data := data; HttpMsg := EmptyString |}.

Definition NewClientf (format : string) (a : list value)
  : Error :=
  let data := Sprintf format a in
  NewClient (VString data).

Definition NewClientWithHttp (httpMsg : string) (data : value)
  : Error :=
  {| IsAuthErr := false; IsUnauthorizedErr := false; IsForbiddenErr := false;
     IsClErr := true; IsNotFoundErr := false; IsNotImplementedErr := false;
     IsRetryableErr := false; IsConflictErr := false;
     IsPreconditionFailedErr := false;
     Data := data; HttpMsg := httpMsg |}.

Definition NewClientWithHttpf (httpMsg : string) (format : string)
  (a : list value) : Error :=
  let data := Sprintf format a in
  NewClientWithHttp httpMsg (VString data).

(** Not-implemented errors; the plain constructor takes no argument. *)
Definition NewNotImplemented : Error :=
  {| IsAuthErr := false; IsUnauthorizedErr := false; IsForbiddenErr := false;
     IsClErr := false; IsNotFoundErr := false; IsNotImplementedErr := true;
     IsRetryableErr := false; IsConflictErr := false;
     IsPreconditionFailedErr := false;
     Data := VString "not implemented"; HttpMsg := EmptyString |}.

Definition NewNotImplementedf (format : string) (a : list value)
  : Error :=
  let data := Sprintf format a in
  {| IsAuthErr := false; IsUnauthorizedErr := false; IsForbiddenErr := false;
     IsClErr := false; IsNotFoundErr := false; IsNotImplementedErr := true;
     IsRetryableErr := false; IsConflictErr := false;
     IsPreconditionFailedErr := false;
     Data := VString data; HttpMsg := EmptyString |}.

Definition NewNotImplementedWithHttp (httpMsg : string) (data : value)
  : Error :=
  {| IsAuthErr := false; IsUnauthorizedErr := false; IsForbiddenErr := false;
     IsClErr := false; IsNotFoundErr := false; IsNotImplementedErr := true;
     IsRetryableErr := false; IsConflictErr := false;
     IsPreconditionFailedErr := false;
     Data := data; HttpMsg := httpMsg |}.

Definition NewNotImplementedWithHttpf (httpMsg : string) (format : string)
  (a : list value) : Error :=
  let data := Sprintf format a in
  NewNotImplementedWithHttp httpMsg (VString data).

(** Auth errors of no specific kind. *)
Definition NewAuth (data : value) : Error :=
  {| IsAuthErr := true; IsUnauthorizedErr := false; IsForbiddenErr := false;
     IsClErr := false; IsNotFoundErr := false; IsNotImplementedErr := false;
     IsRetryableErr := false; IsConflictErr := false;
     IsPreconditionFailedErr := false;
     Data := data; HttpMsg := EmptyString |}.

Definition NewAuthf (format : string) (a : list value)
  : Error :=
  let data := Sprintf format a in
  NewAuth (VString data).

Definition NewAuthWithHttp (httpMsg : string) (data : value)
  : Error :=
  {| IsAuthErr := true; IsUnauthorizedErr := false; IsForbiddenErr := false;
     IsClErr := false; IsNotFoundErr := false; IsNotImplementedErr := false;
     IsRetryableErr := false; IsConflictErr := false;
     IsPreconditionFailedErr := false;
     Data := data; HttpMsg := httpMsg |}.

Definition NewAuthWithHttpf (httpMsg : string) (format : string)
  (a : list value) : Error :=
  let data := Sprintf format a in
  NewAuthWithHttp httpMsg (VString data).

(** Forbidden errors. *)
Definition NewForbidden (data : value) : Error :=
  {| IsAuthErr := true; IsUnauthorizedErr := false; IsForbiddenErr := true;
     IsClErr := false; IsNotFoundErr := false; IsNotImplementedErr := false;
     IsRetryableErr := false; IsConflictErr := false;
     IsPreconditionFailedErr := false;
     Data := data; HttpMsg := EmptyString |}.

Definition NewForbiddenf (format : string) (a : list value)
  : Error :=
  let data := Sprintf format a in
  NewForbidden (VString data).

Definition NewForbiddentWithHttp (httpMsg : string) (data : value)
  : Error :=
  {| IsAuthErr := false; IsUnauthorizedErr := false; IsForbiddenErr := true;
     IsClErr := false; IsNotFoundErr := false; IsNotImplementedErr := false;
     IsRetryableErr := false; IsConflictErr := false;
     IsPreconditionFailedErr := false;
     Data := data; HttpMsg := httpMsg |}.

Definition NewForbiddentWithHttpf (httpMsg : string) (format : string)
  (a : list value) : Error :=
  let data := Sprintf format a in
  NewForbiddentWithHttp httpMsg (VString data).

(** Unauthorized errors. *)
Definition NewUnauthorized (data : value) : Error :=
  {| IsAuthErr := true; IsUnauthorizedErr := true; IsForbiddenErr := false;
     IsClErr := false; IsNotFoundErr := false; IsNotImplementedErr := false;
     IsRetryableErr := false; IsConflictErr := false;
     IsPreconditionFailedErr := false;
     Data := data; HttpMsg := EmptyString |}.

Definition NewUnauthorizedf (format : string) (a : list value)
  : Error :=
  let data := Sprintf format a in
  NewUnauthorized (VString data).

Definition NewUnauthorizedWithHttp (httpMsg : string) (data : value)
  : Error :=
  {| IsAuthErr := false; IsUnauthorizedErr := true; IsForbiddenErr := false;
     IsClErr := false; IsNotFoundErr := false; IsNotImplementedErr := false;
     IsRetryableErr := false; IsConflictErr := false;
     IsPreconditionFailedErr := false;
     Data := data; HttpMsg := httpMsg |}.

Definition NewUnauthorizedWithHttpf (httpMsg : string) (format : string)
  (a : list value) : Error :=
  let data := Sprintf format a in
  NewUnauthorizedWithHttp httpMsg (VString data).

(** Not-found errors. *)
Definition NewNotFound (data : value) : Error :=
  {| IsAuthErr := false; IsUnauthorizedErr := false; IsForbiddenErr := false;
     IsClErr := false; IsNotFoundErr := true; IsNotImplementedErr := false;
     IsRetryableErr := false; IsConflictErr := false;
     IsPreconditionFailedErr := false;
     Data := data; HttpMsg := EmptyString |}.

Definition NewNotFoundf (format : string) (a : list value)
  : Error :=
  let data := Sprintf format a in
  NewNotFound (VString data).

Definition NewNotFoundWithHttp (httpMsg : string) (data : value)
  : Error :=
  {| IsAuthErr := false; IsUnauthorizedErr := false; IsForbiddenErr := false;
     IsClErr := false; IsNotFoundErr := true; IsNotImplementedErr := false;
     IsRetryableErr := false; IsConflictErr := false;
     IsPreconditionFailedErr := false;
     Data := data; HttpMsg := httpMsg |}.

Definition NewNotFoundWithHttpf (httpMsg : string) (format : string)
  (a : list value) : Error :=
  let data := Sprintf format a in
  NewNotFoundWithHttp httpMsg (VString data).

(** Retryable errors. *)
Definition NewRetryable (data : value) : Error :=
  {| IsAuthErr := false; IsUnauthorizedErr := false; IsForbiddenErr := false;
     IsClErr := false; IsNotFoundErr := false; IsNotImplementedErr := false;
     IsRetryableErr := true; IsConflictErr := false;
     IsPreconditionFailedErr := false;
     Data := data; HttpMsg := EmptyString |}.

Definition NewRetryablef (format : string) (a : list value)
  : Error :=
  let data := Sprintf format a in
  NewRetryable (VString data).

Definition NewRetryableWithHttp (httpMsg : string) (data : value)
  : Error :=
  {| IsAuthErr := false; IsUnauthorizedErr := false; IsForbiddenErr := false;
     IsClErr := false; IsNotFoundErr := false; IsNotImplementedErr := false;
     IsRetryableErr := true; IsConflictErr := false;
     IsPreconditionFailedErr := false;
     Data := data; HttpMsg := httpMsg |}.

Definition NewRetryableWithHttpf (httpMsg : string) (format : string)
  (a : list value) : Error :=
  let data := Sprintf format a in
  NewRetryableWithHttp httpMsg (VString data).

(** Conflict errors. *)
Definition NewConflict (data : value) : Error :=
  {| IsAuthErr := false; IsUnauthorizedErr := false; IsForbiddenErr := false;
     IsClErr := false; IsNotFoundErr := false; IsNotImplementedErr := false;
     IsRetryableErr := false; IsConflictErr := true;
     IsPreconditionFailedErr := false;
     Data := data; HttpMsg := EmptyString |}.

Definition NewConflictf (format : string) (a : list value)
  : Error :=
  let data := Sprintf format a in
  NewConflict (VString data).

Definition NewConflictWithHttp (httpMsg : string) (data : value)
  : Error :=
  {| IsAuthErr := false; IsUnauthorizedErr := false; IsForbiddenErr := false;
     IsClErr := false; IsNotFoundErr := false; IsNotImplementedErr := false;
     IsRetryableErr := false; IsConflictErr := true;
     IsPreconditionFailedErr := false;
     Data := data; HttpMsg := httpMsg |}.

Definition NewConflictWithHttpf (httpMsg : string) (format : string)
  (a : list value) : Error :=
  let data := Sprintf format a in
  NewConflictWithHttp httpMsg (VString data).

(** Precondition-failed errors. *)
Definition NewPreconditionFailed (data : value) : Error :=
  {| IsAuthErr := false; IsUnauthorizedErr := false; IsForbiddenErr := false;
     IsClErr := false; IsNotFoundErr := false; IsNotImplementedErr := false;
     IsRetryableErr := false; IsConflictErr := false;
     IsPreconditionFailedErr := true;
     Data := data; HttpMsg := EmptyString |}.

Definition NewPreconditionFailedf (format : string) (a : list value)
  : Error :=
  let data := Sprintf format a in
  NewPreconditionFailed (VString data).

Definition NewPreconditionFailedWithHttp (httpMsg : string) (data : value)
  : Error :=
  {| IsAuthErr := false; IsUnauthorizedErr := false; IsForbiddenErr := false;
     IsClErr := false; IsNotFoundErr := false; IsNotImplementedErr := false;
     IsRetryableErr := false; IsConflictErr := false;
     IsPreconditionFailedErr := true;
     Data := data; HttpMsg := httpMsg |}.

Definition NewPreconditionFailedWithHttpf (httpMsg : string) (format : string)
  (a : list value) : Error :=
  let data := Sprintf format a in
  NewPreconditionFailedWithHttp httpMsg (VString data).

End Constructors.

(** ** Values of the interface type [error] *)

(** An [error] is nil, holds an [Error] (dynamic type [Error]), or holds a
    value of some other type (a pointer to an [Error] included), known here
    by the text its [Error()] method returns. *)
Inductive error : Type :=
| err_nil
| err_typed (e : Error)
| err_other (msg : string).

(** The type assertion [err.(Error)]. *)
Definition as_Error (err : error) : option Error :=
  match err with
  | err_typed e => Some e
  | _ => None
  end.

(** [err.Error()] of a non-nil error. *)
Definition error_text (err : error) : string :=
  match err with
  | err_nil => EmptyString
  | err_typed e => Error.Error e
  | err_other msg => msg
  end.

(** An [error] passed where [interface{}] is expected. *)
Definition to_value (err : error) : value :=
  match err with
  | err_nil => VNil
  | err_typed e => VStringer (Error.Error e)
  | err_other msg => VStringer msg
  end.

(** ** Checkers *)

Module ClErrCheck.
Definition IsClientError (err : error) : bool :=
  match as_Error err with
  | Some errC => Error.Client errC
  | None => false
  end.
End ClErrCheck.

Module NotImplErrCheck.
Definition IsNotImplementedError (err : error) : bool :=
  match as_Error err with
  | Some errC => Error.NotImplemented errC
  | None => false
  end.
End NotImplErrCheck.

Module AuthErrCheck.
Definition IsAuthError (err : error) : bool :=
  match as_Error err with
  | Some errC => Error.Auth errC
  | None => false
  end.

Definition IsForbiddenError (err : error) : bool :=
  match as_Error err with
  | Some errC => Error.Forbidden errC
  | None => false
  end.

Definition IsUnauthorizedError (err : error) : bool :=
  match as_Error err with
  | Some errC => Error.Unauthorized errC
  | None => false
  end.
End AuthErrCheck.

Module NotFoundErrCheck.
Definition IsNotFoundError (err : error) : bool :=
  match as_Error err with
  | Some errC => Error.NotFound errC
  | None => false
  end.
End NotFoundErrCheck.

Module RetryableErrCheck.
Definition IsRetryableError (err : error) : bool :=
  match as_Error err with
  | Some errC => Error.Retryable errC
  | None => false
  end.
End RetryableErrCheck.

Module ConflictErrCheck.
Definition IsConflictError (err : error) : bool :=
  match as_Error err with
  | Some errC => Error.Conflict errC
  | None => false
  end.
End ConflictErrCheck.

Module PreconditionFailedErrCheck.
Definition IsPreconditionFailedError (err : error) : bool :=
  match as_Error err with
  | Some errC => Error.PreconditionFailed errC
  | None => false
  end.
End PreconditionFailedErrCheck.

(** [AllErrCheck] embeds the seven checkers and so has all nine methods. *)
Module AllErrCheck.
Include AuthErrCheck.
Include NotFoundErrCheck.
Include NotImplErrCheck.
Include ClErrCheck.
Include RetryableErrCheck.
Include ConflictErrCheck.
Include PreconditionFailedErrCheck.
End AllErrCheck.

Module ErrToHTTP.
Definition ToHTTPResponse (err : error) (w : http.ResponseWriter)
  : (Z * bool) * http.ResponseWriter :=
  match as_Error err with
  | Some err => Error.ToHTTPResponse err w
  | None => ((-1, false), w)
  end.
End ErrToHTTP.

(** ** Packages time and backoff, as far as the driver touches them *)

Module time.
Definition Duration : Type := Z.
Definition Second : Duration := 1000000000.
Definition Minute : Duration := 60 * Second.
End time.

Module backoff.
(** A [float64] is carried as its 64-bit pattern; the driver only stores it. *)
Definition float64 : Type := Z.

Record Backoff : Type := mkBackoff {
  attempt : Z;
  Factor : float64;
  Jitter : bool;
  Min : time.Duration;
  Max : time.Duration
}.
End backoff.

(** ** The retry driver (retry.go) *)

(** retry.go lives in package typederrs, whose [Error] is the record above
    without the Conflict and PreconditionFailed flags and without
    [HttpMsg]; [New], [Newf] and [IsRetryableError] have the same bodies
    there.  The driver is stated over the richer record. *)

(** An implementation of the one-method interface [IsRetryableErrChecker]
    is known by that method. *)
Definition IsRetryableErrChecker : Type := error -> bool.

Record RetryConfig : Type := mkRetryConfig {
  backoff : backoff.Backoff;
  checker : IsRetryableErrChecker
}.

Definition RetryOption : Type := RetryConfig -> RetryConfig.

Definition RetryWithMinBackoff (d : time.Duration) : RetryOption :=
  fun b =>
    {| backoff :=
         {| backoff.attempt := backoff.attempt (backoff b);
            backoff.Factor := backoff.Factor (backoff b);
            backoff.Jitter := backoff.Jitter (backoff b);
            backoff.Min := d;
            backoff.Max := backoff.Max (backoff b) |};
       checker := checker b |}.

Definition RetryWithMaxBackoff (d : time.Duration) : RetryOption :=
  fun b =>
    {| backoff :=
         {| backoff.attempt := backoff.attempt (backoff b);
            backoff.Factor := backoff.Factor (backoff b);
            backoff.Jitter := backoff.Jitter (backoff b);
            backoff.Min := backoff.Min (backoff b);
            backoff.Max := d |};
       checker := checker b |}.

Definition RetryWithBackoffFactor (f : backoff.float64) : RetryOption :=
  fun b =>
    {| backoff :=
         {| backoff.attempt := backoff.attempt (backoff b);
            backoff.Factor := f;
            backoff.Jitter := backoff.Jitter (backoff b);
            backoff.Min := backoff.Min (backoff b);
            backoff.Max := backoff.Max (backoff b) |};
       checker := checker b |}.

Definition RetryWithBackoffJitter (t : bool) : RetryOption :=
  fun b =>
    {| backoff :=
         {| backoff.attempt := backoff.attempt (backoff b);
            backoff.Factor := backoff.Factor (backoff b);
            backoff.Jitter := t;
            backoff.Min := backoff.Min (backoff b);
            backoff.Max := backoff.Max (backoff b) |};
       checker := checker b |}.

Definition RetryWithRetryableErrChecker (ch : IsRetryableErrChecker)
  : RetryOption :=
  fun b => {| backoff := backoff b; checker := ch |}.

(** The configuration [DoWithRetries] starts from. *)
Definition default_conf : RetryConfig :=
  {| backoff :=
       {| backoff.attempt := 0; backoff.Factor := 0;
          backoff.Jitter := false;
          backoff.Min := 2 * time.Second;
          backoff.Max := 5 * time.Minute |};
     checker := RetryableErrCheck.IsRetryableError |}.

(** The configuration after the options have been applied in order. *)
Definition configure (opts : list RetryOption) : RetryConfig :=
  fold_left (fun conf f => f conf) opts default_conf.

(** What a run of the driver does to its surroundings: it invokes the
    operation and it puts the calling thread to sleep. *)
Inductive event : Type :=
| Invoke
| Sleep (d : time.Duration).

Definition is_invoke (ev : event) : bool :=
  match ev with Invoke => true | Sleep _ => false end.

Definition is_sleep (ev : event) : bool :=
  match ev with Invoke => false | Sleep _ => true end.

Definition invocations (tr : list event) : nat :=
  List.length (List.filter is_invoke tr).

Definition sleeps (tr : list event) : nat :=
  List.length (List.filter is_sleep tr).

Section Driver.

(** The state the closure [doer] captures and may change. *)
Variable World : Type.

(** The method [Duration] of [Backoff]: the next delay and the advanced
    counter. *)
Variable Duration : backoff.Backoff -> time.Duration * backoff.Backoff.

Variable Sprintf : string -> list value -> string.

Record state : Type := mkState {
  world : World;
  trace : list event
}.

Definition call (doer : World -> error * World) (st : state)
  : error * state :=
  let (err, w) := doer (world st) in
  (err, {| world := w; trace := (trace st ++ [Invoke])%list |}).

Definition time_Sleep (d : time.Duration) (st : state) : state :=
  {| world := world st; trace := (trace st ++ [Sleep d])%list |}.

(** The [for] loop with [n] iterations left to run; [err] is the variable
    declared before the loop. *)
Fixpoint attempts (doer : World -> error * World) (n : nat)
  (conf : RetryConfig) (err : error) (st : state) : error * state :=
  match n with
  | O => (err_typed (Newf Sprintf "too many retries: %v" [to_value err]), st)
  | S n' =>
      let (err, st) := call doer st in
      match err with
      | err_nil => (err_nil, st)
      | _ =>
          if negb (checker conf err) then (err, st)
          else
            let (d, b) := Duration (backoff conf) in
            attempts doer n'
              {| backoff := b; checker := checker conf |} err
              (time_Sleep d st)
      end
  end.

Definition DoWithRetries (doer : World -> error * World)
  (opts : list RetryOption) (st : state) : error * state :=
  let conf := configure opts in
  attempts doer 5 conf err_nil st.

(** *** Vocabulary for runs of the operation *)

(** The world after the operation has been invoked [i] times. *)
Fixpoint world_after (doer : World -> error * World) (i : nat) (w : World)
  : World :=
  match i with
  | O => w
  | S i' => snd (doer (world_after doer i' w))
  end.

(** The result of invocation number [i], counting from zero. *)
Definition result_of (doer : World -> error * World) (i : nat) (w : World)
  : error :=
  fst (doer (world_after doer i w)).

(** The backoff state after [i] delays have been drawn. *)
Fixpoint backoff_after (i : nat) (b : backoff.Backoff) : backoff.Backoff :=
  match i with
  | O => b
  | S i' => snd (Duration (backoff_after i' b))
  end.

(** The delay slept after invocation number [i]. *)
Definition delay_of (i : nat) (b : backoff.Backoff) : time.Duration :=
  fst (Duration (backoff_after i b)).

(** The events of [k] failed rounds: an invocation each, followed by its
    sleep. *)
Fixpoint rounds (k : nat) (b : backoff.Backoff) : list event :=
  match k with
  | O => []
  | S k' => (rounds k' b ++ [Invoke; Sleep (delay_of k' b)])%list
  end.

Definition is_nil (err : error) : bool :=
  match err with err_nil => true | _ => false end.

(** Invocation [i] failed with an error the checker [ch] calls retryable. *)
Definition fails_retryably (ch : error -> bool)
  (doer : World -> error * World) (w : World) (i : nat) : Prop :=
  is_nil (result_of doer i w) = false /\ ch (result_of doer i w) = true.

End Driver.

Arguments mkState {World}.
Arguments world {World}.
Arguments trace {World}.
Arguments call {World}.
Arguments time_Sleep {World}.
Arguments attempts {World}.
Arguments DoWithRetries {World}.
Arguments world_after {World}.
Arguments result_of {World}.
Arguments fails_retryably {World}.

(** ** Reference notions used by the statements below *)

(** The priority list of the transport rendering, as the specification
    words it: each entry pairs a test on the flags with the status it
    selects, and the first entry whose test succeeds decides. *)
Definition priority_order : list ((Error -> bool) * (Error -> Z)) :=
  [ (fun e => IsAuthErr e || IsForbiddenErr e || IsUnauthorizedErr e,
     fun e => if IsForbiddenErr e then 403 else 401);
    (IsClErr, fun _ => 400);
    (IsNotFoundErr, fun _ => 404);
    (IsNotImplementedErr, fun _ => 501);
    (IsRetryableErr, fun _ => 503);
    (IsConflictErr, fun _ => 409);
    (IsPreconditionFailedErr, fun _ => 412) ].

Fixpoint first_match (order : list ((Error -> bool) * (Error -> Z)))
  (e : Error) : option Z :=
  match order with
  | [] => None
  | (test, code) :: rest =>
      if test e then Some (code e) else first_match rest e
  end.

(** Status and written flag as the priority list prescribes them. *)
Definition status_by_priority (e : Error) : Z * bool :=
  match first_match priority_order e with
  | Some code => (code, true)
  | None => (-1, false)
  end.

(** No classification flag is set. *)
Definition unclassified (e : Error) : bool :=
  negb (IsAuthErr e || IsUnauthorizedErr e || IsForbiddenErr e
        || IsClErr e || IsNotFoundErr e || IsNotImplementedErr e
        || IsRetryableErr e || IsConflictErr e
        || IsPreconditionFailedErr e).

(** The nine flags of an error, in declaration order. *)
Definition flags (e : Error) : list bool :=
  [ IsAuthErr e; IsUnauthorizedErr e; IsForbiddenErr e; IsClErr e;
    IsNotFoundErr e; IsNotImplementedErr e; IsRetryableErr e;
    IsConflictErr e; IsPreconditionFailedErr e ].


(** The test fixture with every flag raised (errWithAllFlagsTrue). *)
Definition errWithAllFlagsTrue : Error :=
  {| IsAuthErr := true; IsUnauthorizedErr := true; IsForbiddenErr := true;
     IsClErr := true; IsNotFoundErr := true; IsNotImplementedErr := true;
     IsRetryableErr := true; IsConflictErr := true;
     IsPreconditionFailedErr := true;
     Data := VString EmptyString; HttpMsg := EmptyString |}.

(** *** Sample operations and a sample backoff for running the driver *)

(** Fails with a retryable error on its first [k] invocations and succeeds
    afterwards; the world is the number of invocations so far. *)
Definition flaky (k : nat) (n : nat) : error * nat :=
  (if Nat.ltb n k then err_typed (NewRetryable (VString "busy"))
   else err_nil,
   S n).

(** Fails with a not-found error on every invocation. *)
Definition gone (n : nat) : error * nat :=
  (err_typed (NewNotFound (VString "gone")), S n).

(** Fails retryably on its first [k] invocations and with a not-found
    error from then on. *)
Definition flaky_then_gone (k : nat) (n : nat) : error * nat :=
  (if Nat.ltb n k then err_typed (NewRetryable (VString "busy"))
   else err_typed (NewNotFound (VString "gone")),
   S n).

(** Doubling from [Min], capped at [Max], no jitter. *)
Definition doubling (b : backoff.Backoff) : time.Duration * backoff.Backoff :=
  (Z.min (backoff.Max b) (backoff.Min b * 2 ^ backoff.attempt b),
   {| backoff.attempt := (backoff.attempt b + 1) mod 2 ^ 64;
      backoff.Factor := backoff.Factor b;
      backoff.Jitter := backoff.Jitter b;
      backoff.Min := backoff.Min b;
      backoff.Max := backoff.Max b |}).

Definition fresh : state nat := {| world := O; trace := [] |}.

(** ** Package typederrs (errors.go): the typed error beside retry.go *)

Module typederrs.

Record Error : Type := mkError {
  IsAuthErr : bool;
  IsUnauthorizedErr : bool;
  IsForbiddenErr : bool;
  IsClErr : bool;
  IsNotFoundErr : bool;
  IsNotImplementedErr : bool;
  IsRetryableErr : bool;
  Data : value
}.

Module Error.

Definition Client (e : Error) : bool := IsClErr e.

Definition NotImplemented (e : Error) : bool := IsNotImplementedErr e.

Definition Auth (e : Error) : bool :=
  IsAuthErr e || IsUnauthorizedErr e || IsForbiddenErr e.

Definition Unauthorized (e : Error) : bool := IsUnauthorizedErr e.

Definition Forbidden (e : Error) : bool := IsForbiddenErr e.

Definition NotFound (e : Error) : bool := IsNotFoundErr e.

Definition Retryable (e : Error) : bool := IsRetryableErr e.

Definition Error (e : Error) : string := Sprint (Data e).

End Error.

Section Constructors.

Variable Sprintf : string -> list value -> string.

Definition New (data : value) : Error :=
  {| IsAuthErr := false; IsUnauthorizedErr := false; IsForbiddenErr := false;
     IsClErr := false; IsNotFoundErr := false; IsNotImplementedErr := false;
     IsRetryableErr := false; Data := data |}.

Definition Newf (format : string) (a : list value)
  : Error :=
  let data := Sprintf format a in
  New (VString data).

Definition NewClient (data : value) : Error :=
  {| IsAuthErr := false; IsUnauthorizedErr := false; IsForbiddenErr := false;
     IsClErr := true; IsNotFoundErr := false; IsNotImplementedErr := false;
     IsRetryableErr := false; Data := data |}.

Definition NewClientf (format : string) (a : list value)
  : Error :=
  let data := Sprintf format a in
  NewClient (VString data).

Definition NewNotImplemented : Error :=
  {| IsAuthErr := false; IsUnauthorizedErr := false; IsForbiddenErr := false;
     IsClErr := false; IsNotFoundErr := false; IsNotImplementedErr := true;
     IsRetryableErr := false; Data := VString "not implemented" |}.

Definition NewNotImplementedf (format : string) (a : list value)
  : Error :=
  let data := Sprintf format a in
  {| IsAuthErr := false; IsUnauthorizedErr := false; IsForbiddenErr := false;
     IsClErr := false; IsNotFoundErr := false; IsNotImplementedErr := true;
     IsRetryableErr := false; Data := VString data |}.

Definition NewAuth (data : value) : Error :=
  {| IsAuthErr := true; IsUnauthorizedErr := false; IsForbiddenErr := false;
     IsClErr := false; IsNotFoundErr := false; IsNotImplementedErr := false;
     IsRetryableErr := false; Data := data |}.

Definition NewForbidden (data : value) : Error :=
  {| IsAuthErr := true; IsUnauthorizedErr := false; IsForbiddenErr := true;
     IsClErr := false; IsNotFoundErr := false; IsNotImplementedErr := false;
     IsRetryableErr := false; Data := data |}.

Definition NewUnauthorized (data : value) : Error :=
  {| IsAuthErr := true; IsUnauthorizedErr := true; IsForbiddenErr := false;
     IsClErr := false; IsNotFoundErr := false; IsNotImplementedErr := false;
     IsRetryableErr := false; Data := data |}.

Definition NewAuthf (format : string) (a : list value)
  : Error :=
  let data := Sprintf format a in
  NewAuth (VString data).

Definition NewForbiddenf (format : string) (a : list value)
  : Error :=
  let data := Sprintf format a in
  NewForbidden (VString data).

Definition NewUnauthorizedf (format : string) (a : list value)
  : Error :=
  let data := Sprintf format a in
  NewUnauthorized (VString data).

Definition NewNotFound (data : value) : Error :=
  {| IsAuthErr := false; IsUnauthorizedErr := false; IsForbiddenErr := false;
     IsClErr := false; IsNotFoundErr := true; IsNotImplementedErr := false;
     IsRetryableErr := false; Data := data |}.

Definition NewNotFoundf (format : string) (a : list value)
  : Error :=
  let data := Sprintf format a in
  NewNotFound (VString data).

Definition NewRetryable (data : value) : Error :=
  {| IsAuthErr := false; IsUnauthorizedErr := false; IsForbiddenErr := false;
     IsClErr := false; IsNotFoundErr := false; IsNotImplementedErr := false;
     IsRetryableErr := true; Data := data |}.

Definition NewRetryablef (format : string) (a : list value)
  : Error :=
  let data := Sprintf format a in
  NewRetryable (VString data).

End Constructors.

(** Values of the interface type [error], as seen from this package. *)
Inductive error : Type :=
| err_nil
| err_typed (e : Error)
| err_other (msg : string).

Definition as_Error (err : error) : option Error :=
  match err with
  | err_typed e => Some e
  | _ => None
  end.

Module ClErrCheck.
Definition IsClientError (err : error) : bool :=
  match as_Error err with
  | Some errC => Error.Client errC
  | None => false
  end.
End ClErrCheck.

Module NotImplErrCheck.
Definition IsNotImplementedError (err : error) : bool :=
  match as_Error err with
  | Some errC => Error.NotImplemented errC
  | None => false
  end.
End NotImplErrCheck.

Module AuthErrCheck.
Definition IsAuthError (err : error) : bool :=
  match as_Error err with
  | Some errC => Error.Auth errC
  | None => false
  end.

Definition IsForbiddenError (err : error) : bool :=
  match as_Error err with
  | Some errC => Error.Forbidden errC
  | None => false
  end.

Definition IsUnauthorizedError (err : error) : bool :=
  match as_Error err with
  | Some errC => Error.Unauthorized errC
  | None => false
  end.
End AuthErrCheck.

Module NotFoundErrCheck.
Definition IsNotFoundError (err : error) : bool :=
  match as_Error err with
  | Some errC => Error.NotFound errC
  | None => false
  end.
End NotFoundErrCheck.

Module RetryableErrCheck.
Definition IsRetryableError (err : error) : bool :=
  match as_Error err with
  | Some errC => Error.Retryable errC
  | None => false
  end.
End RetryableErrCheck.

End typederrs.

(** An error of package typederrs read as one of package errors: the seven
    flags and the payload are kept, nothing else is set. *)
Definition embed (e : typederrs.Error) : Error :=
  {| IsAuthErr := typederrs.IsAuthErr e;
     IsUnauthorizedErr := typederrs.IsUnauthorizedErr e;
     IsForbiddenErr := typederrs.IsForbiddenErr e;
     IsClErr := typederrs.IsClErr e;
     IsNotFoundErr := typederrs.IsNotFoundErr e;
     IsNotImplementedErr := typederrs.IsNotImplementedErr e;
     IsRetryableErr := typederrs.IsRetryableErr e;
     IsConflictErr := false;
     IsPreconditionFailedErr := false;
     Data := typederrs.Data e;
     HttpMsg := EmptyString |}.

Definition embed_error (err : typederrs.error) : error :=
  match err with
  | typederrs.err_nil => err_nil
  | typederrs.err_typed e => err_typed (embed e)
  | typederrs.err_other msg => err_other msg
  end.

(** ** Tables over the kinds of error *)

(** The ten kinds the constructors come in. *)
Inductive kind : Type :=
| Generic
| Client
| NotImplemented
| Auth
| Forbidden
| Unauthorized
| NotFound
| Retryable
| Conflict
| PreconditionFailed.

Definition kinds : list kind :=
  [ Generic; Client; NotImplemented; Auth; Forbidden; Unauthorized;
    NotFound; Retryable; Conflict; PreconditionFailed ].

(** The plain constructor of each kind; [NewNotImplemented] takes no
    payload. *)
Definition plain (k : kind) (data : value) : Error :=
  match k with
  | Generic => New data
  | Client => NewClient data
  | NotImplemented => NewNotImplemented
  | Auth => NewAuth data
  | Forbidden => NewForbidden data
  | Unauthorized => NewUnauthorized data
  | NotFound => NewNotFound data
  | Retryable => NewRetryable data
  | Conflict => NewConflict data
  | PreconditionFailed => NewPreconditionFailed data
  end.

(** The formatted constructor of each kind. *)
Definition formatted (Sprintf : string -> list value -> string) (k : kind)
  (format : string) (a : list value) : Error :=
  match k with
  | Generic => Newf Sprintf format a
  | Client => NewClientf Sprintf format a
  | NotImplemented => NewNotImplementedf Sprintf format a
  | Auth => NewAuthf Sprintf format a
  | Forbidden => NewForbiddenf Sprintf format a
  | Unauthorized => NewUnauthorizedf Sprintf format a
  | NotFound => NewNotFoundf Sprintf format a
  | Retryable => NewRetryablef Sprintf format a
  | Conflict => NewConflictf Sprintf format a
  | PreconditionFailed => NewPreconditionFailedf Sprintf format a
  end.

(** The constructor of each kind that takes a transport message. *)
Definition with_http (k : kind) (httpMsg : string) (data : value) : Error :=
  match k with
  | Generic => NewWithHttp httpMsg data
  | Client => NewClientWithHttp httpMsg data
  | NotImplemented => NewNotImplementedWithHttp httpMsg data
  | Auth => NewAuthWithHttp httpMsg data
  | Forbidden => NewForbiddentWithHttp httpMsg data
  | Unauthorized => NewUnauthorizedWithHttp httpMsg data
  | NotFound => NewNotFoundWithHttp httpMsg data
  | Retryable => NewRetryableWithHttp httpMsg data
  | Conflict => NewConflictWithHttp httpMsg data
  | PreconditionFailed => NewPreconditionFailedWithHttp httpMsg data
  end.

(** The formatted constructor of each kind that takes a transport
    message. *)
Definition with_httpf (Sprintf : string -> list value -> string) (k : kind)
  (httpMsg : string) (format : string) (a : list value) : Error :=
  match k with
  | Generic => NewWithHttpf Sprintf httpMsg format a
  | Client => NewClientWithHttpf Sprintf httpMsg format a
  | NotImplemented => NewNotImplementedWithHttpf Sprintf httpMsg format a
  | Auth => NewAuthWithHttpf Sprintf httpMsg format a
  | Forbidden => NewForbiddentWithHttpf Sprintf httpMsg format a
  | Unauthorized => NewUnauthorizedWithHttpf Sprintf httpMsg format a
  | NotFound => NewNotFoundWithHttpf Sprintf httpMsg format a
  | Retryable => NewRetryableWithHttpf Sprintf httpMsg format a
  | Conflict => NewConflictWithHttpf Sprintf httpMsg format a
  | PreconditionFailed =>
      NewPreconditionFailedWithHttpf Sprintf httpMsg format a
  end.

(** What the nine checkers answer on an error value, in the order Auth,
    Unauthorized, Forbidden, Client, NotFound, NotImplemented, Retryable,
    Conflict, PreconditionFailed. *)
Definition answers (err : error) : list bool :=
  [ AuthErrCheck.IsAuthError err;
    AuthErrCheck.IsUnauthorizedError err;
    AuthErrCheck.IsForbiddenError err;
    ClErrCheck.IsClientError err;
    NotFoundErrCheck.IsNotFoundError err;
    NotImplErrCheck.IsNotImplementedError err;
    RetryableErrCheck.IsRetryableError err;
    ConflictErrCheck.IsConflictError err;
    PreconditionFailedErrCheck.IsPreconditionFailedError err ].

(** The answers one expects for an error of each kind: its own checker,
    and [IsAuthError] besides for the two specific auth kinds. *)
Definition recognised (k : kind) : list bool :=
  match k with
  | Generic =>
      [false; false; false; false; false; false; false; false; false]
  | Client =>
      [false; false; false; true; false; false; false; false; false]
  | NotImplemented =>
      [false; false; false; false; false; true; false; false; false]
  | Auth =>
      [true; false; false; false; false; false; false; false; false]
  | Forbidden =>
      [true; false; true; false; false; false; false; false; false]
  | Unauthorized =>
      [true; true; false; false; false; false; false; false; false]
  | NotFound =>
      [false; false; false; false; true; false; false; false; false]
  | Retryable =>
      [false; false; false; false; false; false; true; false; false]
  | Conflict =>
      [false; false; false; false; false; false; false; true; false]
  | PreconditionFailed =>
      [false; false; false; false; false; false; false; false; true]
  end.

(** The HTTP status an error of each kind is rendered with, if any. *)
Definition status_of_kind (k : kind) : option Z :=
  match k with
  | Generic => None
  | Client => Some 400
  | NotImplemented => Some 501
  | Auth => Some 401
  | Forbidden => Some 403
  | Unauthorized => Some 401
  | NotFound => Some 404
  | Retryable => Some 503
  | Conflict => Some 409
  | PreconditionFailed => Some 412
  end.

(** What [ToHTTPResponse] is expected to do on sink [w] for an error of kind
    [k] whose body text is [msg]. *)
Definition rendering (k : kind) (msg : string) (w : http.ResponseWriter)
  : (Z * bool) * http.ResponseWriter :=
  match status_of_kind k with
  | Some code => ((code, true), http.Error w msg code)
  | None => ((-1, false), w)
  end.

(** The statuses [ToHTTPResponse] ever writes. *)
Definition statuses : list Z := [401; 403; 400; 404; 501; 503; 409; 412].

(** Invocation [k] ends the loop: it succeeded, or it failed with an error
    the checker does not call retryable. *)
Definition stops {World : Type} (ch : error -> bool)
  (doer : World -> error * World) (w : World) (k : nat) : Prop :=
  is_nil (result_of doer k w) = true \/ ch (result_of doer k w) = false.

(** The four options of retry.go that set a field of the backoff. *)
Inductive backoff_option : RetryOption -> Prop :=
| opt_min (d : time.Duration) : backoff_option (RetryWithMinBackoff d)
| opt_max (d : time.Duration) : backoff_option (RetryWithMaxBackoff d)
| opt_factor (f : backoff.float64) :
    backoff_option (RetryWithBackoffFactor f)
| opt_jitter (t : bool) : backoff_option (RetryWithBackoffJitter t).

(** Two options that may be given in either order. *)
Definition commute (f g : RetryOption) : Prop :=
  forall opts : list RetryOption,
    configure (opts ++ [f; g]) = configure (opts ++ [g; f]).

(** An option whose effect is undone by a later one. *)
Definition overridden_by (f g : RetryOption) : Prop :=
  forall opts : list RetryOption,
    configure (opts ++ [f; g]) = configure (opts ++ [g]).

(** A backoff that always answers the same delay and counts its draws. *)
Definition steady (d : time.Duration) (b : backoff.Backoff)
  : time.Duration * backoff.Backoff :=
  (d,
   {| backoff.attempt := (backoff.attempt b + 1) mod 2 ^ 64;
      backoff.Factor := backoff.Factor b;
      backoff.Jitter := backoff.Jitter b;
      backoff.Min := backoff.Min b;
      backoff.Max := backoff.Max b |}).

(** * Properties *)

(** ** The package's own tests, replayed *)

Example Sprint_string : Sprint (VString "this error message") =
                        "this error message".
Proof. reflexivity. Qed.

Example Sprint_negative : Sprint (VInt (-42)) = "-42".
Proof. reflexivity. Qed.

Example Sprint_zero : Sprint (VInt 0) = "0".
Proof. reflexivity. Qed.

Example TestNewNotImplemented :
  Error.Error NewNotImplemented = "not implemented" /\
  NotImplErrCheck.IsNotImplementedError (err_typed NewNotImplemented) = true.
Proof. split; reflexivity. Qed.

Example TestNewForbidden :
  Error.Error (NewForbidden (VString "this error message")) =
    "this error message" /\
  AuthErrCheck.IsAuthError
    (err_typed (NewForbidden (VString "this error message"))) = true /\
  AuthErrCheck.IsForbiddenError
    (err_typed (NewForbidden (VString "this error message"))) = true.
Proof. repeat split. Qed.

Example TestPreconditionFailedErrCheck_IsPreconditionFailedError :
  PreconditionFailedErrCheck.IsPreconditionFailedError
    (err_typed errWithAllFlagsTrue) = true /\
  PreconditionFailedErrCheck.IsPreconditionFailedError
    (err_typed
       {| IsAuthErr := true; IsUnauthorizedErr := true;
          IsForbiddenErr := true; IsClErr := true; IsNotFoundErr := true;
          IsNotImplementedErr := true; IsRetryableErr := true;
          IsConflictErr := true; IsPreconditionFailedErr := false;
          Data := VString EmptyString; HttpMsg := EmptyString |}) = false.
Proof. split; reflexivity. Qed.

(** ** Transport rendering *)

Ltac by_flags e :=
  destruct e as [a u f c nf ni r cf pf d h];
  destruct a, u, f, c, nf, ni, r, cf, pf.

Lemma ToHTTPResponse_status (e : Error) (w : http.ResponseWriter) :
  fst (Error.ToHTTPResponse e w) = status_by_priority e.
Proof. by_flags e; reflexivity. Qed.

Lemma ToHTTPResponse_sink (e : Error) (w : http.ResponseWriter) :
  snd (Error.ToHTTPResponse e w) =
  if snd (fst (Error.ToHTTPResponse e w)) then
    http.Error w
      (if String.eqb (HttpMsg e) EmptyString then Error.Error e
       else HttpMsg e)
      (fst (fst (Error.ToHTTPResponse e w)))
  else w.
Proof. by_flags e; reflexivity. Qed.

Lemma ToHTTPResponse_written_flag (e : Error) (w : http.ResponseWriter) :
  snd (fst (Error.ToHTTPResponse e w)) = negb (unclassified e).
Proof. by_flags e; reflexivity. Qed.

(** C1: for every typed error the status chosen by [ToHTTPResponse] is the
    one of the first matching entry of the priority list (Auth family with
    403 for Forbidden and 401 otherwise, then 400, 404, 501, 503, 409,
    412); in particular Forbidden together with NotFound gives 403. *)
Theorem ToHTTPResponse_priority_order :
  (forall (e : Error) (w : http.ResponseWriter),
      fst (Error.ToHTTPResponse e w) = status_by_priority e) /\
  (forall (e : Error) (w : http.ResponseWriter),
      IsForbiddenErr e = true -> IsNotFoundErr e = true ->
      fst (Error.ToHTTPResponse e w) = (403, true)).
Proof.
  split.
  - exact ToHTTPResponse_status.
  - intros e w Hf Hnf. destruct e as [a u f c nf ni r cf pf d h].
    simpl in Hf, Hnf. subst f nf.
    destruct a, u; reflexivity.
Qed.

Lemma ToHTTPResponse_priority_order_witness :
  IsForbiddenErr errWithAllFlagsTrue = true /\
  IsNotFoundErr errWithAllFlagsTrue = true /\
  fst (Error.ToHTTPResponse errWithAllFlagsTrue []) = (403, true).
Proof.
  split; [reflexivity | split; [reflexivity |]].
  apply (proj2 ToHTTPResponse_priority_order errWithAllFlagsTrue []);
    reflexivity.
Defined.

(** C7: with no flag set, [ToHTTPResponse] leaves the sink as it found it
    and returns -1 and false; with some flag set it appends exactly one
    reply, carrying the status it returns together with true. *)
Theorem ToHTTPResponse_writes_once_or_nothing
  (e : Error) (w : http.ResponseWriter) :
  (unclassified e = true ->
   Error.ToHTTPResponse e w = ((-1, false), w)) /\
  (unclassified e = false ->
   exists code msg,
     Error.ToHTTPResponse e w =
       ((code, true), (w ++ [http.mkReply code msg])%list)
     /\ status_by_priority e = (code, true)).
Proof.
  split; intro H.
  - by_flags e; try discriminate H; reflexivity.
  - by_flags e; try discriminate H;
      eexists; eexists; split; reflexivity.
Qed.

Lemma ToHTTPResponse_writes_once_or_nothing_witness :
  (unclassified (New (VString "plain")) = true /\
   Error.ToHTTPResponse (New (VString "plain")) [] = ((-1, false), [])) /\
  (unclassified (NewConflict (VString "clash")) = false /\
   exists code msg,
     Error.ToHTTPResponse (NewConflict (VString "clash")) [] =
       ((code, true), [http.mkReply code msg])
     /\ status_by_priority (NewConflict (VString "clash")) = (code, true)).
Proof.
  split; (split; [reflexivity |]).
  - apply (proj1 (ToHTTPResponse_writes_once_or_nothing
                    (New (VString "plain")) [])); reflexivity.
  - apply (proj2 (ToHTTPResponse_writes_once_or_nothing
                    (NewConflict (VString "clash")) [])); reflexivity.
Defined.

(** C8: every classified error is written, and the body is the transport
    message if that is set and the stringified payload otherwise, under
    the status the priority list selects; two classified errors with the
    same payload and transport message get the same body, whatever their
    flags. *)
Theorem ToHTTPResponse_body (e : Error) (w : http.ResponseWriter) :
  unclassified e = false ->
  Error.ToHTTPResponse e w =
    ((fst (status_by_priority e), true),
     http.Error w
       (if String.eqb (HttpMsg e) EmptyString then Error.Error e
        else HttpMsg e)
       (fst (status_by_priority e))) /\
  (HttpMsg e = EmptyString ->
   snd (Error.ToHTTPResponse e w) =
     (w ++ [http.mkReply (fst (status_by_priority e)) (Error.Error e)])%list)
  /\
  (HttpMsg e <> EmptyString ->
   snd (Error.ToHTTPResponse e w) =
     (w ++ [http.mkReply (fst (status_by_priority e)) (HttpMsg e)])%list) /\
  (forall e2 : Error,
      unclassified e2 = false ->
      Data e2 = Data e -> HttpMsg e2 = HttpMsg e ->
      map http.body (snd (Error.ToHTTPResponse e2 w)) =
        map http.body (snd (Error.ToHTTPResponse e w))).
Proof.
  assert (Hrun : forall x : Error,
             unclassified x = false ->
             Error.ToHTTPResponse x w =
               ((fst (status_by_priority x), true),
                http.Error w
                  (if String.eqb (HttpMsg x) EmptyString then Error.Error x
                   else HttpMsg x)
                  (fst (status_by_priority x)))).
  { intros x Hx.
    pose proof (ToHTTPResponse_status x w) as Hs.
    pose proof (ToHTTPResponse_sink x w) as Hk.
    pose proof (ToHTTPResponse_written_flag x w) as Hf.
    rewrite Hx in Hf. cbn [negb] in Hf. rewrite Hf in Hk.
    destruct (Error.ToHTTPResponse x w) as [[c f] w'].
    cbn [fst snd] in *. subst. rewrite <- Hs. reflexivity. }
  intro Hu. split; [exact (Hrun e Hu) |]. split; [| split].
  - intro Hh. rewrite (Hrun e Hu), Hh. reflexivity.
  - intro Hh. rewrite (Hrun e Hu).
    apply String.eqb_neq in Hh. rewrite Hh. reflexivity.
  - intros e2 Hu2 Hd Hh. rewrite (Hrun e Hu), (Hrun e2 Hu2).
    unfold http.Error, Error.Error. cbn [snd]. rewrite Hd, Hh, !map_app.
    reflexivity.
Qed.

Lemma ToHTTPResponse_body_witness :
  (unclassified (NewNotFound (VInt 7)) = false /\
   HttpMsg (NewNotFound (VInt 7)) = EmptyString /\
   snd (Error.ToHTTPResponse (NewNotFound (VInt 7))
          [http.mkReply 200 "earlier"]) =
     [http.mkReply 200 "earlier"; http.mkReply 404 "7"]) /\
  (unclassified (NewNotFoundWithHttp "try later" (VInt 7)) = false /\
   HttpMsg (NewNotFoundWithHttp "try later" (VInt 7)) <> EmptyString /\
   snd (Error.ToHTTPResponse (NewNotFoundWithHttp "try later" (VInt 7))
          [http.mkReply 200 "earlier"]) =
     [http.mkReply 200 "earlier"; http.mkReply 404 "try later"]).
Proof.
  split; (split; [reflexivity |]).
  - split; [reflexivity |].
    apply (proj1 (proj2 (ToHTTPResponse_body (NewNotFound (VInt 7))
                           [http.mkReply 200 "earlier"] eq_refl))).
    reflexivity.
  - split; [discriminate |].
    apply (proj1 (proj2 (proj2
             (ToHTTPResponse_body (NewNotFoundWithHttp "try later" (VInt 7))
                [http.mkReply 200 "earlier"] eq_refl)))).
    discriminate.
Defined.



(** ** Constructors and payload *)

(** C9: each constructor taking a message, given a string, yields an error
    whose [Error()] is that string; each formatted constructor yields an
    error whose [Error()] is the expansion of the format with its
    operands. *)
Theorem Error_of_constructors :
  (forall msg : string,
      Error.Error (New (VString msg)) = msg /\
      Error.Error (NewClient (VString msg)) = msg /\
      Error.Error (NewAuth (VString msg)) = msg /\
      Error.Error (NewForbidden (VString msg)) = msg /\
      Error.Error (NewUnauthorized (VString msg)) = msg /\
      Error.Error (NewNotFound (VString msg)) = msg /\
      Error.Error (NewRetryable (VString msg)) = msg /\
      Error.Error (NewConflict (VString msg)) = msg /\
      Error.Error (NewPreconditionFailed (VString msg)) = msg) /\
  (forall (Sprintf : string -> list value -> string) (format : string)
          (a : list value),
      Error.Error (Newf Sprintf format a) = Sprintf format a /\
      Error.Error (NewClientf Sprintf format a) = Sprintf format a /\
      Error.Error (NewNotImplementedf Sprintf format a) = Sprintf format a /\
      Error.Error (NewAuthf Sprintf format a) = Sprintf format a /\
      Error.Error (NewForbiddenf Sprintf format a) = Sprintf format a /\
      Error.Error (NewUnauthorizedf Sprintf format a) = Sprintf format a /\
      Error.Error (NewNotFoundf Sprintf format a) = Sprintf format a /\
      Error.Error (NewRetryablef Sprintf format a) = Sprintf format a /\
      Error.Error (NewConflictf Sprintf format a) = Sprintf format a /\
      Error.Error (NewPreconditionFailedf Sprintf format a) =
        Sprintf format a).
Proof.
  split.
  - intro msg. repeat split.
  - intros Sprintf format a. repeat split.
Qed.

(** The one plain constructor without a message parameter carries a fixed
    text. *)
Lemma Error_of_NewNotImplemented :
  Error.Error NewNotImplemented = "not implemented".
Proof. reflexivity. Qed.

(** The constructors that take a transport message keep the payload text
    too. *)
Lemma Error_of_WithHttp (httpMsg msg : string) :
  Error.Error (NewWithHttp httpMsg (VString msg)) = msg /\
  Error.Error (NewClientWithHttp httpMsg (VString msg)) = msg /\
  Error.Error (NewNotImplementedWithHttp httpMsg (VString msg)) = msg /\
  Error.Error (NewAuthWithHttp httpMsg (VString msg)) = msg /\
  Error.Error (NewForbiddentWithHttp httpMsg (VString msg)) = msg /\
  Error.Error (NewUnauthorizedWithHttp httpMsg (VString msg)) = msg /\
  Error.Error (NewNotFoundWithHttp httpMsg (VString msg)) = msg /\
  Error.Error (NewRetryableWithHttp httpMsg (VString msg)) = msg /\
  Error.Error (NewConflictWithHttp httpMsg (VString msg)) = msg /\
  Error.Error (NewPreconditionFailedWithHttp httpMsg (VString msg)) = msg.
Proof. repeat split. Qed.

(** Flags of the forbidden and unauthorized constructors without transport
    message: Auth and the specific flag, nothing else. *)
Lemma flags_of_NewForbidden_NewUnauthorized
  (Sprintf : string -> list value -> string) (data : value)
  (format : string) (a : list value) :
  flags (NewForbidden data) =
    [true; false; true; false; false; false; false; false; false] /\
  flags (NewForbiddenf Sprintf format a) =
    [true; false; true; false; false; false; false; false; false] /\
  flags (NewUnauthorized data) =
    [true; true; false; false; false; false; false; false; false] /\
  flags (NewUnauthorizedf Sprintf format a) =
    [true; true; false; false; false; false; false; false; false].
Proof. repeat split. Qed.

(** Flags of their siblings with transport message: the specific flag
    alone.  [Auth()] holds all the same, through the union. *)
Lemma flags_of_WithHttp_Forbidden_Unauthorized
  (Sprintf : string -> list value -> string) (httpMsg : string)
  (data : value) (format : string) (a : list value) :
  flags (NewForbiddentWithHttp httpMsg data) =
    [false; false; true; false; false; false; false; false; false] /\
  flags (NewForbiddentWithHttpf Sprintf httpMsg format a) =
    [false; false; true; false; false; false; false; false; false] /\
  flags (NewUnauthorizedWithHttp httpMsg data) =
    [false; true; false; false; false; false; false; false; false] /\
  flags (NewUnauthorizedWithHttpf Sprintf httpMsg format a) =
    [false; true; false; false; false; false; false; false; false] /\
  Error.Auth (NewForbiddentWithHttp httpMsg data) = true /\
  Error.Auth (NewUnauthorizedWithHttp httpMsg data) = true.
Proof. repeat split. Qed.

(** C3: at [NewForbiddentWithHttp "denied" "no access"] and at
    [NewUnauthorizedWithHttp "login" "no token"] the Auth flag is not set,
    although the specific flag is, and although [NewForbidden] and
    [NewUnauthorized] on the same payload set both. *)
Theorem WithHttp_auth_flag_unset :
  IsAuthErr (NewForbiddentWithHttp "denied" (VString "no access")) = false /\
  IsForbiddenErr (NewForbiddentWithHttp "denied" (VString "no access")) =
    true /\
  IsAuthErr (NewForbidden (VString "no access")) = true /\
  IsAuthErr (NewUnauthorizedWithHttp "login" (VString "no token")) = false /\
  IsUnauthorizedErr (NewUnauthorizedWithHttp "login" (VString "no token")) =
    true /\
  IsAuthErr (NewUnauthorized (VString "no token")) = true.
Proof. repeat split. Qed.

(** ** Checkers *)

(** C6: on an error value that is not an [Error] every checker answers
    false; on an [Error] each answers the flag of its kind, except
    [IsAuthError], which answers the disjunction of the Auth, Unauthorized
    and Forbidden flags. *)
Theorem checkers_read_flags :
  (forall err : error,
      as_Error err = None ->
      AuthErrCheck.IsAuthError err = false /\
      AuthErrCheck.IsUnauthorizedError err = false /\
      AuthErrCheck.IsForbiddenError err = false /\
      ClErrCheck.IsClientError err = false /\
      NotFoundErrCheck.IsNotFoundError err = false /\
      NotImplErrCheck.IsNotImplementedError err = false /\
      RetryableErrCheck.IsRetryableError err = false /\
      ConflictErrCheck.IsConflictError err = false /\
      PreconditionFailedErrCheck.IsPreconditionFailedError err = false) /\
  (forall e : Error,
      (AuthErrCheck.IsAuthError (err_typed e) = true <->
       IsAuthErr e = true \/ IsUnauthorizedErr e = true \/
       IsForbiddenErr e = true) /\
      AuthErrCheck.IsUnauthorizedError (err_typed e) = IsUnauthorizedErr e /\
      AuthErrCheck.IsForbiddenError (err_typed e) = IsForbiddenErr e /\
      ClErrCheck.IsClientError (err_typed e) = IsClErr e /\
      NotFoundErrCheck.IsNotFoundError (err_typed e) = IsNotFoundErr e /\
      NotImplErrCheck.IsNotImplementedError (err_typed e) =
        IsNotImplementedErr e /\
      RetryableErrCheck.IsRetryableError (err_typed e) = IsRetryableErr e /\
      ConflictErrCheck.IsConflictError (err_typed e) = IsConflictErr e /\
      PreconditionFailedErrCheck.IsPreconditionFailedError (err_typed e) =
        IsPreconditionFailedErr e).
Proof.
  split.
  - intros err H.
    unfold AuthErrCheck.IsAuthError, AuthErrCheck.IsUnauthorizedError,
      AuthErrCheck.IsForbiddenError, ClErrCheck.IsClientError,
      NotFoundErrCheck.IsNotFoundError, NotImplErrCheck.IsNotImplementedError,
      RetryableErrCheck.IsRetryableError, ConflictErrCheck.IsConflictError,
      PreconditionFailedErrCheck.IsPreconditionFailedError.
    rewrite H. repeat split.
  - intro e. split; [| repeat split].
    unfold AuthErrCheck.IsAuthError, Error.Auth. simpl.
    rewrite !orb_true_iff. tauto.
Qed.

Lemma checkers_read_flags_witness :
  as_Error (err_other "disk full") = None /\
  AuthErrCheck.IsAuthError (err_other "disk full") = false /\
  AuthErrCheck.IsUnauthorizedError (err_other "disk full") = false /\
  AuthErrCheck.IsForbiddenError (err_other "disk full") = false /\
  ClErrCheck.IsClientError (err_other "disk full") = false /\
  NotFoundErrCheck.IsNotFoundError (err_other "disk full") = false /\
  NotImplErrCheck.IsNotImplementedError (err_other "disk full") = false /\
  RetryableErrCheck.IsRetryableError (err_other "disk full") = false /\
  ConflictErrCheck.IsConflictError (err_other "disk full") = false /\
  PreconditionFailedErrCheck.IsPreconditionFailedError
    (err_other "disk full") = false.
Proof.
  split; [reflexivity |].
  apply (proj1 checkers_read_flags (err_other "disk full")); reflexivity.
Defined.

(** The embeddable checkers and [AllErrCheck] agree method by method. *)
Lemma AllErrCheck_embeds (err : error) :
  AllErrCheck.IsAuthError err = AuthErrCheck.IsAuthError err /\
  AllErrCheck.IsUnauthorizedError err = AuthErrCheck.IsUnauthorizedError err /\
  AllErrCheck.IsForbiddenError err = AuthErrCheck.IsForbiddenError err /\
  AllErrCheck.IsClientError err = ClErrCheck.IsClientError err /\
  AllErrCheck.IsNotFoundError err = NotFoundErrCheck.IsNotFoundError err /\
  AllErrCheck.IsNotImplementedError err =
    NotImplErrCheck.IsNotImplementedError err /\
  AllErrCheck.IsRetryableError err =
    RetryableErrCheck.IsRetryableError err /\
  AllErrCheck.IsConflictError err = ConflictErrCheck.IsConflictError err /\
  AllErrCheck.IsPreconditionFailedError err =
    PreconditionFailedErrCheck.IsPreconditionFailedError err.
Proof. repeat split. Qed.

(** ** The retry driver *)

Lemma invocations_app (t1 t2 : list event) :
  invocations (t1 ++ t2) = (invocations t1 + invocations t2)%nat.
Proof. unfold invocations. rewrite filter_app, length_app. reflexivity. Qed.

Lemma sleeps_app (t1 t2 : list event) :
  sleeps (t1 ++ t2) = (sleeps t1 + sleeps t2)%nat.
Proof. unfold sleeps. rewrite filter_app, length_app. reflexivity. Qed.

Section DriverFacts.

Variable World : Type.
Variable Duration : backoff.Backoff -> time.Duration * backoff.Backoff.
Variable Sprintf : string -> list value -> string.
Variable doer : World -> error * World.

Lemma invocations_rounds (k : nat) (b : backoff.Backoff) :
  invocations (rounds Duration k b) = k.
Proof.
  induction k as [| k IH]; [reflexivity |].
  cbn [rounds]. rewrite invocations_app, IH.
  unfold invocations. simpl. lia.
Qed.

Lemma sleeps_rounds (k : nat) (b : backoff.Backoff) :
  sleeps (rounds Duration k b) = k.
Proof.
  induction k as [| k IH]; [reflexivity |].
  cbn [rounds]. rewrite sleeps_app, IH.
  unfold sleeps. simpl. lia.
Qed.

(** One iteration whose invocation fails retryably: invoke, draw a delay,
    sleep, go on with one iteration less. *)
Lemma attempts_retry (n : nat) (conf : RetryConfig) (err : error)
  (st : state World) :
  is_nil (fst (doer (world st))) = false ->
  checker conf (fst (doer (world st))) = true ->
  attempts Duration Sprintf doer (S n) conf err st =
  attempts Duration Sprintf doer n
    {| backoff := snd (Duration (backoff conf)); checker := checker conf |}
    (fst (doer (world st)))
    {| world := snd (doer (world st));
       trace :=
         (trace st
          ++ [Invoke; Sleep (fst (Duration (backoff conf)))])%list |}.
Proof.
  intros Hnil Hch. simpl. unfold call.
  destruct (doer (world st)) as [e w]. simpl in *.
  destruct e; [discriminate Hnil | |];
    rewrite Hch; simpl; destruct (Duration (backoff conf)) as [d b];
    unfold time_Sleep; simpl; rewrite <- app_assoc; reflexivity.
Qed.

(** One iteration whose invocation succeeds or fails for good: invoke and
    return what the operation returned. *)
Lemma attempts_stop (n : nat) (conf : RetryConfig) (err : error)
  (st : state World) :
  is_nil (fst (doer (world st))) = true \/
  checker conf (fst (doer (world st))) = false ->
  attempts Duration Sprintf doer (S n) conf err st =
  (fst (doer (world st)),
   {| world := snd (doer (world st));
      trace := (trace st ++ [Invoke])%list |}).
Proof.
  intros H. simpl. unfold call.
  destruct (doer (world st)) as [e w]. simpl in *.
  destruct e; [reflexivity | |];
    (destruct H as [H | H]; [discriminate H | rewrite H; reflexivity]).
Qed.

(** [k] retryable failures in a row take the loop [k] iterations further. *)
Lemma attempts_rounds (k : nat) :
  forall (n : nat) (conf : RetryConfig) (err : error) (st : state World),
    (forall i, (i < k)%nat ->
               fails_retryably (checker conf) doer (world st) i) ->
    attempts Duration Sprintf doer (k + n) conf err st =
    attempts Duration Sprintf doer n
      {| backoff := backoff_after Duration k (backoff conf);
         checker := checker conf |}
      (match k with
       | O => err
       | S k' => result_of doer k' (world st)
       end)
      {| world := world_after doer k (world st);
         trace := (trace st ++ rounds Duration k (backoff conf))%list |}.
Proof.
  induction k as [| k IH]; intros n conf err st Hfail.
  - simpl. rewrite app_nil_r. destruct conf, st. reflexivity.
  - replace (S k + n)%nat with (k + S n)%nat by lia.
    rewrite IH by (intros i Hi; apply Hfail; lia).
    destruct (Hfail k (Nat.lt_succ_diag_r k)) as [Hnil Hch].
    unfold result_of in Hnil, Hch.
    rewrite attempts_retry by assumption.
    simpl. rewrite <- app_assoc. reflexivity.
Qed.

End DriverFacts.

Lemma append_empty (s : string) : (s ++ EmptyString)%string = s.
Proof. induction s as [| c s IH]; simpl; [| rewrite IH]; reflexivity. Qed.

Lemma Sprint_to_value (err : error) :
  is_nil err = false -> Sprint (to_value err) = error_text err.
Proof. destruct err; [discriminate | reflexivity | reflexivity]. Qed.

Lemma Sprintf_v_too_many_retries (v : value) :
  Sprintf_v "too many retries: %v" [v] =
  ("too many retries: " ++ Sprint v)%string.
Proof. simpl. rewrite append_empty. reflexivity. Qed.

Lemma flaky_fails_retryably (k i : nat) :
  (i < k)%nat ->
  fails_retryably RetryableErrCheck.IsRetryableError (flaky k) O i.
Proof.
  intro Hi.
  assert (Hw : forall j, world_after (flaky k) j O = j).
  { induction j as [| j IH]; [reflexivity |]. simpl. rewrite IH. reflexivity. }
  unfold fails_retryably, result_of. rewrite Hw. unfold flaky. simpl.
  apply Nat.ltb_lt in Hi. rewrite Hi. split; reflexivity.
Qed.

Section DriverClaims.

Variable World : Type.
Variable Duration : backoff.Backoff -> time.Duration * backoff.Backoff.
Variable Sprintf : string -> list value -> string.

(** Five retryable failures in a row: the whole run, event by event. *)
Lemma DoWithRetries_exhausted_run (doer : World -> error * World)
  (opts : list RetryOption) (st : state World) :
  (forall i, (i < 5)%nat ->
             fails_retryably (checker (configure opts)) doer (world st) i) ->
  DoWithRetries Duration Sprintf doer opts st =
  (err_typed
     (Newf Sprintf "too many retries: %v"
        [to_value (result_of doer 4 (world st))]),
   {| world := world_after doer 5 (world st);
      trace :=
        (trace st ++ rounds Duration 5 (backoff (configure opts)))%list |}).
Proof.
  intro Hfail. unfold DoWithRetries.
  change 5%nat with (5 + 0)%nat at 1.
  rewrite (attempts_rounds World Duration Sprintf doer 5) by exact Hfail.
  reflexivity.
Qed.

(** C2: when all five invocations fail with errors the configured checker
    calls retryable, [DoWithRetries] returns the generic error built by
    [New] from the text "too many retries: " followed by the text of the
    fifth failure; no flag is set on it and every checker answers false. *)
Theorem DoWithRetries_too_many_retries (doer : World -> error * World)
  (opts : list RetryOption) (st : state World) :
  (forall v, Sprintf "too many retries: %v" [v] =
             ("too many retries: " ++ Sprint v)%string) ->
  (forall i, (i < 5)%nat ->
             fails_retryably (checker (configure opts)) doer (world st) i) ->
  exists e : Error,
    fst (DoWithRetries Duration Sprintf doer opts st) = err_typed e /\
    e = New (VString ("too many retries: "
                      ++ error_text (result_of doer 4 (world st)))) /\
    Error.Error e =
      ("too many retries: "
       ++ error_text (result_of doer 4 (world st)))%string /\
    unclassified e = true /\
    AuthErrCheck.IsAuthError (err_typed e) = false /\
    AuthErrCheck.IsUnauthorizedError (err_typed e) = false /\
    AuthErrCheck.IsForbiddenError (err_typed e) = false /\
    ClErrCheck.IsClientError (err_typed e) = false /\
    NotFoundErrCheck.IsNotFoundError (err_typed e) = false /\
    NotImplErrCheck.IsNotImplementedError (err_typed e) = false /\
    RetryableErrCheck.IsRetryableError (err_typed e) = false /\
    ConflictErrCheck.IsConflictError (err_typed e) = false /\
    PreconditionFailedErrCheck.IsPreconditionFailedError (err_typed e) =
      false.
Proof.
  intros Hfmt Hfail.
  rewrite (DoWithRetries_exhausted_run doer opts st Hfail).
  eexists. split; [reflexivity |].
  unfold Newf. rewrite Hfmt, Sprint_to_value
    by (exact (proj1 (Hfail 4%nat ltac:(lia)))).
  repeat split.
Qed.

(** C5: when the first [k] invocations fail retryably, [k] below five, and
    the next one returns a non-nil error the configured checker does not
    call retryable, [DoWithRetries] returns that very error; the run adds
    the [k] earlier rounds and one last invocation to the trace, with no
    sleep after it, and leaves the world as that invocation left it. *)
Theorem DoWithRetries_non_retryable (doer : World -> error * World)
  (opts : list RetryOption) (st : state World) (k : nat) (err : error) :
  (k < 5)%nat ->
  (forall i, (i < k)%nat ->
             fails_retryably (checker (configure opts)) doer (world st) i) ->
  result_of doer k (world st) = err ->
  is_nil err = false ->
  checker (configure opts) err = false ->
  DoWithRetries Duration Sprintf doer opts st =
    (err,
     {| world := world_after doer (S k) (world st);
        trace :=
          (trace st ++ rounds Duration k (backoff (configure opts))
           ++ [Invoke])%list |}) /\
  invocations (trace (snd (DoWithRetries Duration Sprintf doer opts st))) =
    (invocations (trace st) + S k)%nat /\
  sleeps (trace (snd (DoWithRetries Duration Sprintf doer opts st))) =
    (sleeps (trace st) + k)%nat.
Proof.
  intros Hk Hfail Hres Hnil Hch.
  assert (Hrun :
    DoWithRetries Duration Sprintf doer opts st =
    (err,
     {| world := world_after doer (S k) (world st);
        trace :=
          (trace st ++ rounds Duration k (backoff (configure opts))
           ++ [Invoke])%list |})).
  { unfold DoWithRetries.
    replace 5%nat with (k + S (4 - k))%nat by lia.
    rewrite (attempts_rounds World Duration Sprintf doer k) by exact Hfail.
    rewrite attempts_stop.
    - simpl. unfold result_of in Hres. rewrite Hres, <- app_assoc.
      reflexivity.
    - right. simpl. unfold result_of in Hres. rewrite Hres. exact Hch. }
  rewrite Hrun. simpl.
  rewrite !invocations_app, !sleeps_app, invocations_rounds, sleeps_rounds.
  unfold invocations, sleeps. simpl. repeat split; lia.
Qed.

(** Four retryable failures and then success: nil is returned after five
    invocations and four sleeps. *)
Lemma DoWithRetries_succeeds_on_fifth (doer : World -> error * World)
  (opts : list RetryOption) (st : state World) :
  (forall i, (i < 4)%nat ->
             fails_retryably (checker (configure opts)) doer (world st) i) ->
  result_of doer 4 (world st) = err_nil ->
  fst (DoWithRetries Duration Sprintf doer opts st) = err_nil /\
  invocations (trace (snd (DoWithRetries Duration Sprintf doer opts st))) =
    (invocations (trace st) + 5)%nat /\
  sleeps (trace (snd (DoWithRetries Duration Sprintf doer opts st))) =
    (sleeps (trace st) + 4)%nat.
Proof.
  intros Hfail Hres. unfold result_of in Hres.
  assert (Hrun :
    DoWithRetries Duration Sprintf doer opts st =
    (err_nil,
     {| world := world_after doer 5 (world st);
        trace :=
          (trace st ++ rounds Duration 4 (backoff (configure opts))
           ++ [Invoke])%list |})).
  { unfold DoWithRetries.
    change 5%nat with (4 + 1)%nat at 1.
    rewrite (attempts_rounds World Duration Sprintf doer 4) by exact Hfail.
    rewrite attempts_stop
      by (left; cbn [world]; rewrite Hres; reflexivity).
    cbn [world trace]. rewrite Hres, <- app_assoc. reflexivity. }
  rewrite Hrun. cbn [fst snd trace].
  rewrite !invocations_app, !sleeps_app, invocations_rounds, sleeps_rounds.
  unfold invocations, sleeps. simpl. repeat split; lia.
Qed.

(** Five retryable failures: five invocations, and a sleep after each of
    them, the fifth included. *)
Lemma DoWithRetries_exhausted_sleeps (doer : World -> error * World)
  (opts : list RetryOption) (st : state World) :
  (forall i, (i < 5)%nat ->
             fails_retryably (checker (configure opts)) doer (world st) i) ->
  invocations (trace (snd (DoWithRetries Duration Sprintf doer opts st))) =
    (invocations (trace st) + 5)%nat /\
  sleeps (trace (snd (DoWithRetries Duration Sprintf doer opts st))) =
    (sleeps (trace st) + 5)%nat.
Proof.
  intro Hfail.
  rewrite (DoWithRetries_exhausted_run doer opts st Hfail).
  cbn [snd trace].
  rewrite invocations_app, sleeps_app, invocations_rounds, sleeps_rounds.
  split; reflexivity.
Qed.

End DriverClaims.

Lemma DoWithRetries_too_many_retries_witness :
  (forall v, Sprintf_v "too many retries: %v" [v] =
             ("too many retries: " ++ Sprint v)%string) /\
  (forall i, (i < 5)%nat ->
             fails_retryably (checker (configure [])) (flaky 5)
               (world fresh) i) /\
  exists e : Error,
    fst (DoWithRetries doubling Sprintf_v (flaky 5) [] fresh) = err_typed e /\
    e = New (VString "too many retries: busy") /\
    Error.Error e = "too many retries: busy" /\
    unclassified e = true /\
    AuthErrCheck.IsAuthError (err_typed e) = false /\
    AuthErrCheck.IsUnauthorizedError (err_typed e) = false /\
    AuthErrCheck.IsForbiddenError (err_typed e) = false /\
    ClErrCheck.IsClientError (err_typed e) = false /\
    NotFoundErrCheck.IsNotFoundError (err_typed e) = false /\
    NotImplErrCheck.IsNotImplementedError (err_typed e) = false /\
    RetryableErrCheck.IsRetryableError (err_typed e) = false /\
    ConflictErrCheck.IsConflictError (err_typed e) = false /\
    PreconditionFailedErrCheck.IsPreconditionFailedError (err_typed e) =
      false.
Proof.
  split; [exact Sprintf_v_too_many_retries |].
  split; [intros i Hi; apply flaky_fails_retryably; exact Hi |].
  apply (DoWithRetries_too_many_retries nat doubling Sprintf_v
           (flaky 5) [] fresh).
  - exact Sprintf_v_too_many_retries.
  - intros i Hi. apply flaky_fails_retryably. exact Hi.
Defined.

Lemma DoWithRetries_non_retryable_witness :
  (0 < 5)%nat /\
  (forall i, (i < 0)%nat ->
             fails_retryably (checker (configure [])) gone (world fresh) i) /\
  result_of gone 0 (world fresh) = err_typed (NewNotFound (VString "gone")) /\
  is_nil (err_typed (NewNotFound (VString "gone"))) = false /\
  checker (configure []) (err_typed (NewNotFound (VString "gone"))) = false /\
  DoWithRetries doubling Sprintf_v gone [] fresh =
    (err_typed (NewNotFound (VString "gone")),
     {| world := 1%nat; trace := [Invoke] |}) /\
  invocations (trace (snd (DoWithRetries doubling Sprintf_v gone [] fresh))) =
    1%nat /\
  sleeps (trace (snd (DoWithRetries doubling Sprintf_v gone [] fresh))) =
    0%nat.
Proof.
  split; [lia |].
  split; [intros i Hi; lia |].
  split; [reflexivity |].
  split; [reflexivity |].
  split; [reflexivity |].
  apply (DoWithRetries_non_retryable nat doubling Sprintf_v gone [] fresh
           0 (err_typed (NewNotFound (VString "gone")))).
  - lia.
  - intros i Hi. lia.
  - reflexivity.
  - reflexivity.
  - reflexivity.
Defined.

(** The same on a later round: two retryable failures, then a not-found
    error, which comes back as it is after three invocations and two
    sleeps. *)
Example DoWithRetries_non_retryable_third_call :
  DoWithRetries doubling Sprintf_v (flaky_then_gone 2) [] fresh =
  (err_typed (NewNotFound (VString "gone")),
   {| world := 3%nat;
      trace := [Invoke; Sleep (2 * time.Second); Invoke;
                Sleep (4 * time.Second); Invoke] |}).
Proof. reflexivity. Qed.

(** The scenario of the specification: four retryable failures, success on
    the fifth call, five invocations and four sleeps. *)
Example DoWithRetries_flaky_4 :
  fst (DoWithRetries doubling Sprintf_v (flaky 4) [] fresh) = err_nil /\
  invocations
    (trace (snd (DoWithRetries doubling Sprintf_v (flaky 4) [] fresh))) =
    5%nat /\
  sleeps
    (trace (snd (DoWithRetries doubling Sprintf_v (flaky 4) [] fresh))) =
    4%nat.
Proof.
  apply (DoWithRetries_succeeds_on_fifth nat doubling Sprintf_v
           (flaky 4) [] fresh).
  - intros i Hi. apply flaky_fails_retryably. exact Hi.
  - reflexivity.
Qed.

(** C4: on the operation that fails retryably at every call, with no
    options, the run ends in the too-many-retries error after five
    invocations and five sleeps; the trace ends with a sleep of 32 seconds
    that follows the fifth and last invocation. *)
Theorem DoWithRetries_sleeps_after_last_attempt :
  fst (DoWithRetries doubling Sprintf_v (flaky 5) [] fresh) =
    err_typed (New (VString "too many retries: busy")) /\
  invocations
    (trace (snd (DoWithRetries doubling Sprintf_v (flaky 5) [] fresh))) =
    5%nat /\
  sleeps
    (trace (snd (DoWithRetries doubling Sprintf_v (flaky 5) [] fresh))) =
    5%nat /\
  trace (snd (DoWithRetries doubling Sprintf_v (flaky 5) [] fresh)) =
    [Invoke; Sleep (2 * time.Second); Invoke; Sleep (4 * time.Second);
     Invoke; Sleep (8 * time.Second); Invoke; Sleep (16 * time.Second);
     Invoke; Sleep (32 * time.Second)].
Proof. repeat split. Qed.

(** * Further properties *)

(** ** Rendering of every constructor *)

(** An error freshly built for a kind, without transport message, is
    rendered with the status of its kind and its own text as body; a generic
    one is not rendered at all.  This holds for the plain and for the
    formatted constructors. *)
Theorem ToHTTPResponse_of_constructors
  (Sprintf : string -> list value -> string) (k : kind) (data : value)
  (format : string) (a : list value) (w : http.ResponseWriter) :
  Error.ToHTTPResponse (plain k data) w =
    rendering k (Error.Error (plain k data)) w /\
  Error.ToHTTPResponse (formatted Sprintf k format a) w =
    rendering k (Sprintf format a) w.
Proof. destruct k; split; reflexivity. Qed.

(** With a non-empty transport message the body is that message, under the
    status of the kind, while [Error()] still gives the payload text; a
    generic error with a transport message is still not rendered. *)
Theorem ToHTTPResponse_of_WithHttp
  (Sprintf : string -> list value -> string) (k : kind) (httpMsg : string)
  (data : value) (format : string) (a : list value)
  (w : http.ResponseWriter) :
  httpMsg <> EmptyString ->
  Error.ToHTTPResponse (with_http k httpMsg data) w =
    rendering k httpMsg w /\
  Error.Error (with_http k httpMsg data) = Sprint data /\
  Error.ToHTTPResponse (with_httpf Sprintf k httpMsg format a) w =
    rendering k httpMsg w /\
  Error.Error (with_httpf Sprintf k httpMsg format a) = Sprintf format a.
Proof.
  intro Hmsg.
  assert (Heq : String.eqb httpMsg EmptyString = false)
    by (apply String.eqb_neq; exact Hmsg).
  destruct k; repeat split;
    unfold Error.ToHTTPResponse; simpl; rewrite ?Heq; reflexivity.
Qed.

Lemma ToHTTPResponse_of_WithHttp_witness :
  "sign in first"%string <> EmptyString /\
  Error.ToHTTPResponse
    (with_http Unauthorized "sign in first" (VString "token expired")) [] =
    ((401, true), [http.mkReply 401 "sign in first"]) /\
  Error.Error
    (with_http Unauthorized "sign in first" (VString "token expired")) =
    "token expired"%string /\
  Error.ToHTTPResponse
    (with_httpf Sprintf_v Unauthorized "sign in first" "token %v"
       [VInt 7]) [] =
    ((401, true), [http.mkReply 401 "sign in first"]) /\
  Error.Error
    (with_httpf Sprintf_v Unauthorized "sign in first" "token %v"
       [VInt 7]) = "token 7"%string.
Proof.
  split; [discriminate |].
  apply (ToHTTPResponse_of_WithHttp Sprintf_v Unauthorized "sign in first"
           (VString "token expired") "token %v" [VInt 7] []).
  discriminate.
Defined.

(** ** What the status depends on *)

(** Whatever reply is added to the sink carries one of the eight known
    statuses, and that status is the one returned; -1 is returned exactly
    when nothing is written, and then the sink is left as it was; the
    replies already in the sink are kept and at most one is added. *)
Theorem ToHTTPResponse_range (e : Error) (w : http.ResponseWriter) :
  (snd (fst (Error.ToHTTPResponse e w)) = true ->
   In (fst (fst (Error.ToHTTPResponse e w))) statuses /\
   exists msg : string,
     snd (Error.ToHTTPResponse e w) =
       (w ++ [http.mkReply (fst (fst (Error.ToHTTPResponse e w))) msg])%list)
  /\
  (forall r : http.reply,
      In r (skipn (List.length w) (snd (Error.ToHTTPResponse e w))) ->
      In (http.status r) statuses /\
      http.status r = fst (fst (Error.ToHTTPResponse e w))) /\
  (fst (fst (Error.ToHTTPResponse e w)) = -1 <->
   snd (fst (Error.ToHTTPResponse e w)) = false) /\
  (snd (fst (Error.ToHTTPResponse e w)) = false ->
   snd (Error.ToHTTPResponse e w) = w) /\
  firstn (List.length w) (snd (Error.ToHTTPResponse e w)) = w /\
  (List.length (snd (Error.ToHTTPResponse e w)) <= S (List.length w))%nat.
Proof.
  assert (Hstat : snd (fst (Error.ToHTTPResponse e w)) = true ->
                  In (fst (fst (Error.ToHTTPResponse e w))) statuses).
  { rewrite ToHTTPResponse_status.
    by_flags e; cbn; intro H; try discriminate H; tauto. }
  assert (Hneg : fst (fst (Error.ToHTTPResponse e w)) = -1 <->
                 snd (fst (Error.ToHTTPResponse e w)) = false).
  { rewrite ToHTTPResponse_status.
    by_flags e; cbn; split; intro H; first [discriminate H | reflexivity]. }
  pose proof (ToHTTPResponse_sink e w) as Hk.
  destruct (Error.ToHTTPResponse e w) as [[c f] w'].
  cbn [fst snd] in *. unfold http.Error in Hk.
  destruct f; subst w'.
  - split.
    { intros _. split; [apply Hstat; reflexivity |].
      eexists. reflexivity. }
    split.
    { intros r Hr. rewrite skipn_app, Nat.sub_diag, skipn_all in Hr.
      cbn in Hr. destruct Hr as [<- | []].
      split; [apply Hstat; reflexivity | reflexivity]. }
    split; [exact Hneg |].
    split; [intro H; discriminate H |].
    split.
    + rewrite firstn_app, Nat.sub_diag, firstn_all. cbn. apply app_nil_r.
    + rewrite length_app. cbn. lia.
  - split; [intro H; discriminate H |].
    split.
    { intros r Hr. rewrite skipn_all in Hr. destruct Hr. }
    split; [exact Hneg |].
    split; [reflexivity |].
    split; [apply firstn_all | lia].
Qed.

Lemma ToHTTPResponse_range_witness :
  snd (fst (Error.ToHTTPResponse (NewRetryable (VString "busy"))
              [http.mkReply 200 "earlier"])) = true /\
  In (fst (fst (Error.ToHTTPResponse (NewRetryable (VString "busy"))
                  [http.mkReply 200 "earlier"]))) statuses /\
  exists msg : string,
    snd (Error.ToHTTPResponse (NewRetryable (VString "busy"))
           [http.mkReply 200 "earlier"]) =
      [http.mkReply 200 "earlier"; http.mkReply 503 msg].
Proof.
  split; [reflexivity |].
  apply (proj1 (ToHTTPResponse_range (NewRetryable (VString "busy"))
                  [http.mkReply 200 "earlier"])).
  reflexivity.
Defined.

(** The Forbidden flag alone decides for 403, whatever else is set; 401
    needs the Auth or the Unauthorized flag and no Forbidden flag; every
    other status needs all three of these flags down. *)
Theorem ToHTTPResponse_auth_family (e : Error) (w : http.ResponseWriter) :
  (fst (fst (Error.ToHTTPResponse e w)) = 403 <-> IsForbiddenErr e = true) /\
  (fst (fst (Error.ToHTTPResponse e w)) = 401 <->
   (IsAuthErr e || IsUnauthorizedErr e) && negb (IsForbiddenErr e) = true) /\
  (fst (fst (Error.ToHTTPResponse e w)) <> 403 ->
   fst (fst (Error.ToHTTPResponse e w)) <> 401 ->
   Error.Auth e = false).
Proof.
  by_flags e; (split; [| split]);
    first [ (split; intro H; first [discriminate H | reflexivity])
          | (intros H1 H2; first [reflexivity
                                | exfalso; apply H1; reflexivity
                                | exfalso; apply H2; reflexivity]) ].
Qed.

Lemma ToHTTPResponse_auth_family_witness :
  fst (fst (Error.ToHTTPResponse (NewNotFound (VString "gone")) [])) <> 403 /\
  fst (fst (Error.ToHTTPResponse (NewNotFound (VString "gone")) [])) <> 401 /\
  Error.Auth (NewNotFound (VString "gone")) = false.
Proof.
  split; [discriminate | split; [discriminate |]].
  apply (proj2 (proj2 (ToHTTPResponse_auth_family
                         (NewNotFound (VString "gone")) [])));
    discriminate.
Defined.

(** The status and the written flag depend on the nine flags only: not on
    the payload, not on the transport message, not on the sink. *)
Theorem ToHTTPResponse_status_by_flags (e1 e2 : Error)
  (w1 w2 : http.ResponseWriter) :
  flags e1 = flags e2 ->
  fst (Error.ToHTTPResponse e1 w1) = fst (Error.ToHTTPResponse e2 w2).
Proof.
  intro H. rewrite !ToHTTPResponse_status.
  destruct e1 as [a1 u1 f1 c1 nf1 ni1 r1 cf1 pf1 d1 h1].
  destruct e2 as [a2 u2 f2 c2 nf2 ni2 r2 cf2 pf2 d2 h2].
  unfold flags in H. simpl in H.
  injection H as -> -> -> -> -> -> -> -> ->.
  reflexivity.
Qed.

Lemma ToHTTPResponse_status_by_flags_witness :
  flags (NewConflict (VString "clash")) =
    flags (NewConflictWithHttp "try again" (VInt 3)) /\
  fst (Error.ToHTTPResponse (NewConflict (VString "clash")) []) =
    fst (Error.ToHTTPResponse (NewConflictWithHttp "try again" (VInt 3))
           [http.mkReply 200 "earlier"]).
Proof.
  split; [reflexivity |].
  apply (ToHTTPResponse_status_by_flags (NewConflict (VString "clash"))
           (NewConflictWithHttp "try again" (VInt 3)) []
           [http.mkReply 200 "earlier"]).
  reflexivity.
Defined.

(** ** The embeddable renderer *)

(** [ErrToHTTP.ToHTTPResponse] writes exactly when the value is an [Error]
    with some flag set; on nil, on a value of another type and on an
    unclassified [Error] it returns -1 and false and leaves the sink as it
    was; on an [Error] it does what the method of [Error] does. *)
Theorem ErrToHTTP_ToHTTPResponse (err : error) (w : http.ResponseWriter) :
  (snd (fst (ErrToHTTP.ToHTTPResponse err w)) = true <->
   exists e : Error, err = err_typed e /\ unclassified e = false) /\
  (snd (fst (ErrToHTTP.ToHTTPResponse err w)) = false ->
   ErrToHTTP.ToHTTPResponse err w = ((-1, false), w)) /\
  (forall e : Error,
      err = err_typed e ->
      ErrToHTTP.ToHTTPResponse err w = Error.ToHTTPResponse e w).
Proof.
  unfold ErrToHTTP.ToHTTPResponse.
  split; [| split].
  - split.
    + destruct err as [| e | msg]; cbn [as_Error fst snd]; intro H;
        try discriminate H.
      exists e. split; [reflexivity |].
      rewrite ToHTTPResponse_written_flag in H.
      destruct (unclassified e); [discriminate H | reflexivity].
    + intros [e [-> Hu]]. cbn [as_Error].
      rewrite ToHTTPResponse_written_flag, Hu. reflexivity.
  - destruct err as [| e | msg]; cbn [as_Error fst snd]; intro H;
      try reflexivity.
    pose proof (ToHTTPResponse_status e w) as Hs.
    pose proof (ToHTTPResponse_sink e w) as Hk.
    rewrite ToHTTPResponse_written_flag in H, Hk.
    destruct (unclassified e) eqn:Hu; [| discriminate H].
    cbn [negb] in Hk.
    assert (Hp : status_by_priority e = (-1, false)).
    { clear - Hu. by_flags e; try discriminate Hu; reflexivity. }
    rewrite Hp in Hs.
    destruct (Error.ToHTTPResponse e w) as [p w']. cbn [fst snd] in *.
    subst. reflexivity.
  - intros e ->. reflexivity.
Qed.

Lemma ErrToHTTP_ToHTTPResponse_witness :
  snd (fst (ErrToHTTP.ToHTTPResponse (err_other "disk full")
              [http.mkReply 200 "earlier"])) = false /\
  ErrToHTTP.ToHTTPResponse (err_other "disk full")
    [http.mkReply 200 "earlier"] =
    ((-1, false), [http.mkReply 200 "earlier"]).
Proof.
  split; [reflexivity |].
  apply (proj1 (proj2 (ErrToHTTP_ToHTTPResponse (err_other "disk full")
                         [http.mkReply 200 "earlier"]))).
  reflexivity.
Defined.

(** ** Constructors against checkers *)

(** An error built by any of the four constructors of a kind is recognised
    by the checker of that kind and, for the forbidden and unauthorized
    kinds, by [IsAuthError] too; every other checker rejects it, and a
    generic error is rejected by all nine. *)
Theorem constructors_recognised
  (Sprintf : string -> list value -> string) (k : kind) (httpMsg : string)
  (data : value) (format : string) (a : list value) :
  answers (err_typed (plain k data)) = recognised k /\
  answers (err_typed (formatted Sprintf k format a)) = recognised k /\
  answers (err_typed (with_http k httpMsg data)) = recognised k /\
  answers (err_typed (with_httpf Sprintf k httpMsg format a)) =
    recognised k.
Proof. destruct k; repeat split. Qed.

(** Wrapping an error with a constructor keeps its text and drops its
    classification: [New(err)] reads as [err] does and is rejected by every
    checker, and the constructor of any kind gives the wrapped error that
    kind alone. *)
Theorem wrapping_keeps_text (err : error) (k : kind) :
  is_nil err = false ->
  Error.Error (New (to_value err)) = error_text err /\
  answers (err_typed (New (to_value err))) = recognised Generic /\
  (k <> NotImplemented ->
   Error.Error (plain k (to_value err)) = error_text err) /\
  answers (err_typed (plain k (to_value err))) = recognised k.
Proof.
  intro Hnil. pose proof (Sprint_to_value err Hnil) as Ht.
  split; [exact Ht |].
  split; [reflexivity |].
  split.
  - intro Hk. destruct k; try exact Ht. contradiction Hk; reflexivity.
  - destruct k; reflexivity.
Qed.

Lemma wrapping_keeps_text_witness :
  is_nil (err_typed (NewRetryable (VString "busy"))) = false /\
  Error.Error (New (to_value (err_typed (NewRetryable (VString "busy"))))) =
    "busy"%string /\
  answers
    (err_typed (New (to_value (err_typed (NewRetryable (VString "busy"))))))
    = recognised Generic /\
  (NotFound <> NotImplemented ->
   Error.Error
     (plain NotFound (to_value (err_typed (NewRetryable (VString "busy")))))
   = "busy"%string) /\
  answers
    (err_typed
       (plain NotFound
          (to_value (err_typed (NewRetryable (VString "busy"))))))
    = recognised NotFound.
Proof.
  split; [reflexivity |].
  apply (wrapping_keeps_text (err_typed (NewRetryable (VString "busy")))
           NotFound).
  reflexivity.
Defined.

(** ** The two packages side by side *)

(** Package typederrs is package errors cut down: each of its sixteen
    constructors builds, read through [embed], what the constructor of the
    same name in package errors builds; its seven checkers and [Error()]
    answer as theirs do; and the two checkers it lacks reject everything
    that comes from it. *)
Theorem typederrs_embeds
  (Sprintf : string -> list value -> string) (data : value)
  (format : string) (a : list value) (e : typederrs.Error)
  (err : typederrs.error) :
  (embed (typederrs.New data) = New data /\
   embed (typederrs.Newf Sprintf format a) = Newf Sprintf format a /\
   embed (typederrs.NewClient data) = NewClient data /\
   embed (typederrs.NewClientf Sprintf format a) =
     NewClientf Sprintf format a /\
   embed typederrs.NewNotImplemented = NewNotImplemented /\
   embed (typederrs.NewNotImplementedf Sprintf format a) =
     NewNotImplementedf Sprintf format a /\
   embed (typederrs.NewAuth data) = NewAuth data /\
   embed (typederrs.NewForbidden data) = NewForbidden data /\
   embed (typederrs.NewUnauthorized data) = NewUnauthorized data /\
   embed (typederrs.NewAuthf Sprintf format a) = NewAuthf Sprintf format a /\
   embed (typederrs.NewForbiddenf Sprintf format a) =
     NewForbiddenf Sprintf format a /\
   embed (typederrs.NewUnauthorizedf Sprintf format a) =
     NewUnauthorizedf Sprintf format a /\
   embed (typederrs.NewNotFound data) = NewNotFound data /\
   embed (typederrs.NewNotFoundf Sprintf format a) =
     NewNotFoundf Sprintf format a /\
   embed (typederrs.NewRetryable data) = NewRetryable data /\
   embed (typederrs.NewRetryablef Sprintf format a) =
     NewRetryablef Sprintf format a) /\
  (AuthErrCheck.IsAuthError (embed_error err) =
     typederrs.AuthErrCheck.IsAuthError err /\
   AuthErrCheck.IsUnauthorizedError (embed_error err) =
     typederrs.AuthErrCheck.IsUnauthorizedError err /\
   AuthErrCheck.IsForbiddenError (embed_error err) =
     typederrs.AuthErrCheck.IsForbiddenError err /\
   ClErrCheck.IsClientError (embed_error err) =
     typederrs.ClErrCheck.IsClientError err /\
   NotFoundErrCheck.IsNotFoundError (embed_error err) =
     typederrs.NotFoundErrCheck.IsNotFoundError err /\
   NotImplErrCheck.IsNotImplementedError (embed_error err) =
     typederrs.NotImplErrCheck.IsNotImplementedError err /\
   RetryableErrCheck.IsRetryableError (embed_error err) =
     typederrs.RetryableErrCheck.IsRetryableError err) /\
  Error.Error (embed e) = typederrs.Error.Error e /\
  ConflictErrCheck.IsConflictError (embed_error err) = false /\
  PreconditionFailedErrCheck.IsPreconditionFailedError (embed_error err) =
    false.
Proof.
  split; [repeat split |].
  split; [destruct err; repeat split |].
  split; [reflexivity |].
  destruct err; split; reflexivity.
Qed.

(** ** Retry options *)

Lemma configure_app (opts : list RetryOption) (f : RetryOption) :
  configure (opts ++ [f]) = f (configure opts).
Proof. unfold configure. rewrite fold_left_app. reflexivity. Qed.

Lemma configure_backoff_options (opts : list RetryOption) :
  Forall backoff_option opts ->
  checker (configure opts) = RetryableErrCheck.IsRetryableError /\
  backoff.attempt (backoff (configure opts)) = 0.
Proof.
  induction opts as [| f opts IH] using rev_ind; intro H.
  - split; reflexivity.
  - apply Forall_app in H. destruct H as [Hopts Hf].
    apply Forall_inv in Hf. destruct (IH Hopts) as [Hc Ha].
    rewrite configure_app. destruct Hf; simpl; split; assumption.
Qed.

(** Options compose by position.  Each of the five options sets its own
    field and leaves the four others (and the draw counter) as the options
    before it left them; of two options for the same setting the later one
    stands; any two options for different settings may be swapped. *)
Theorem options_compose (d d' : time.Duration) (f f' : backoff.float64)
  (t t' : bool) (ch ch' : IsRetryableErrChecker) :
  (forall opts : list RetryOption,
      configure (opts ++ [RetryWithMinBackoff d]) =
        {| backoff :=
             {| backoff.attempt := backoff.attempt (backoff (configure opts));
                backoff.Factor := backoff.Factor (backoff (configure opts));
                backoff.Jitter := backoff.Jitter (backoff (configure opts));
                backoff.Min := d;
                backoff.Max := backoff.Max (backoff (configure opts)) |};
           checker := checker (configure opts) |} /\
      configure (opts ++ [RetryWithMaxBackoff d]) =
        {| backoff :=
             {| backoff.attempt := backoff.attempt (backoff (configure opts));
                backoff.Factor := backoff.Factor (backoff (configure opts));
                backoff.Jitter := backoff.Jitter (backoff (configure opts));
                backoff.Min := backoff.Min (backoff (configure opts));
                backoff.Max := d |};
           checker := checker (configure opts) |} /\
      configure (opts ++ [RetryWithBackoffFactor f]) =
        {| backoff :=
             {| backoff.attempt := backoff.attempt (backoff (configure opts));
                backoff.Factor := f;
                backoff.Jitter := backoff.Jitter (backoff (configure opts));
                backoff.Min := backoff.Min (backoff (configure opts));
                backoff.Max := backoff.Max (backoff (configure opts)) |};
           checker := checker (configure opts) |} /\
      configure (opts ++ [RetryWithBackoffJitter t]) =
        {| backoff :=
             {| backoff.attempt := backoff.attempt (backoff (configure opts));
                backoff.Factor := backoff.Factor (backoff (configure opts));
                backoff.Jitter := t;
                backoff.Min := backoff.Min (backoff (configure opts));
                backoff.Max := backoff.Max (backoff (configure opts)) |};
           checker := checker (configure opts) |} /\
      configure (opts ++ [RetryWithRetryableErrChecker ch]) =
        {| backoff := backoff (configure opts); checker := ch |}) /\
  (overridden_by (RetryWithMinBackoff d) (RetryWithMinBackoff d') /\
   overridden_by (RetryWithMaxBackoff d) (RetryWithMaxBackoff d') /\
   overridden_by (RetryWithBackoffFactor f) (RetryWithBackoffFactor f') /\
   overridden_by (RetryWithBackoffJitter t) (RetryWithBackoffJitter t') /\
   overridden_by (RetryWithRetryableErrChecker ch)
     (RetryWithRetryableErrChecker ch')) /\
  (commute (RetryWithMinBackoff d) (RetryWithMaxBackoff d') /\
   commute (RetryWithMinBackoff d) (RetryWithBackoffFactor f) /\
   commute (RetryWithMinBackoff d) (RetryWithBackoffJitter t) /\
   commute (RetryWithMinBackoff d) (RetryWithRetryableErrChecker ch) /\
   commute (RetryWithMaxBackoff d) (RetryWithBackoffFactor f) /\
   commute (RetryWithMaxBackoff d) (RetryWithBackoffJitter t) /\
   commute (RetryWithMaxBackoff d) (RetryWithRetryableErrChecker ch) /\
   commute (RetryWithBackoffFactor f) (RetryWithBackoffJitter t) /\
   commute (RetryWithBackoffFactor f) (RetryWithRetryableErrChecker ch) /\
   commute (RetryWithBackoffJitter t) (RetryWithRetryableErrChecker ch)).
Proof.
  split; [| split].
  - intro opts. rewrite !configure_app. repeat split.
  - repeat split; intro opts; unfold configure; rewrite !fold_left_app;
      reflexivity.
  - repeat split; intro opts; unfold configure; rewrite !fold_left_app;
      reflexivity.
Qed.

(** Seen from the end of any option list: the last option given for a
    setting is the one in force. *)
Example options_last_wins :
  configure
    [RetryWithMinBackoff 1; RetryWithBackoffJitter true;
     RetryWithRetryableErrChecker (fun _ => true);
     RetryWithMaxBackoff 9; RetryWithBackoffFactor 3;
     RetryWithMinBackoff 5; RetryWithBackoffJitter false] =
  {| backoff :=
       {| backoff.attempt := 0; backoff.Factor := 3;
          backoff.Jitter := false; backoff.Min := 5; backoff.Max := 9 |};
     checker := fun _ => true |}.
Proof. reflexivity. Qed.

(** ** Every run of the driver *)

Section DriverRuns.

Variable World : Type.
Variable Duration : backoff.Backoff -> time.Duration * backoff.Backoff.
Variable Sprintf : string -> list value -> string.
Variable doer : World -> error * World.

(** Among the first [j] invocations either all fail retryably or there is a
    first one that ends the loop. *)
Lemma first_stop (ch : error -> bool) (w : World) (j : nat) :
  (forall i, (i < j)%nat -> fails_retryably ch doer w i) \/
  (exists k, (k < j)%nat /\
             (forall i, (i < k)%nat -> fails_retryably ch doer w i) /\
             stops ch doer w k).
Proof.
  induction j as [| j IH].
  - left. intros i Hi. lia.
  - destruct IH as [Hall | [k [Hk [Hpre Hstop]]]].
    + destruct (is_nil (result_of doer j w)) eqn:Hnil.
      * right. exists j. split; [lia |]. split; [exact Hall |].
        left. exact Hnil.
      * destruct (ch (result_of doer j w)) eqn:Hch.
        -- left. intros i Hi.
           destruct (Nat.eq_dec i j) as [-> | Hne].
           ++ split; assumption.
           ++ apply Hall. lia.
        -- right. exists j. split; [lia |]. split; [exact Hall |].
           right. exact Hch.
    + right. exists k. split; [lia |]. split; assumption.
Qed.

(** A run that stops at invocation [k], event by event. *)
Lemma DoWithRetries_stopped_run (opts : list RetryOption)
  (st : state World) (k : nat) :
  (k < 5)%nat ->
  (forall i, (i < k)%nat ->
             fails_retryably (checker (configure opts)) doer (world st) i) ->
  stops (checker (configure opts)) doer (world st) k ->
  DoWithRetries Duration Sprintf doer opts st =
  (result_of doer k (world st),
   {| world := world_after doer (S k) (world st);
      trace :=
        (trace st ++ rounds Duration k (backoff (configure opts))
         ++ [Invoke])%list |}).
Proof.
  intros Hk Hpre Hstop. unfold DoWithRetries.
  replace 5%nat with (k + S (4 - k))%nat by lia.
  rewrite (attempts_rounds World Duration Sprintf doer k) by exact Hpre.
  rewrite attempts_stop by exact Hstop.
  cbn [world trace world_after]. rewrite <- app_assoc. reflexivity.
Qed.

(** Every run is of one of two shapes: it stops at some invocation, or it
    goes through five retryable failures. *)
Lemma DoWithRetries_run (opts : list RetryOption) (st : state World) :
  (exists k, (k < 5)%nat /\
     (forall i, (i < k)%nat ->
                fails_retryably (checker (configure opts)) doer
                  (world st) i) /\
     stops (checker (configure opts)) doer (world st) k /\
     DoWithRetries Duration Sprintf doer opts st =
     (result_of doer k (world st),
      {| world := world_after doer (S k) (world st);
         trace :=
           (trace st ++ rounds Duration k (backoff (configure opts))
            ++ [Invoke])%list |})) \/
  ((forall i, (i < 5)%nat ->
              fails_retryably (checker (configure opts)) doer (world st) i) /\
   DoWithRetries Duration Sprintf doer opts st =
   (err_typed
      (Newf Sprintf "too many retries: %v"
         [to_value (result_of doer 4 (world st))]),
    {| world := world_after doer 5 (world st);
       trace :=
         (trace st ++ rounds Duration 5 (backoff (configure opts)))%list |})).
Proof.
  destruct (first_stop (checker (configure opts)) (world st) 5)
    as [Hall | [k [Hk [Hpre Hstop]]]].
  - right. split; [exact Hall |].
    apply DoWithRetries_exhausted_run. exact Hall.
  - left. exists k.
    split; [exact Hk |]. split; [exact Hpre |]. split; [exact Hstop |].
    apply DoWithRetries_stopped_run; assumption.
Qed.

(** After [k] retryable failures, [k] below five, a successful invocation
    ends the run: nil comes back after [k + 1] invocations and [k] sleeps,
    the delays being those drawn from the backoff in order.  A success on
    the first call costs one invocation and no sleep. *)
Theorem DoWithRetries_succeeds_after (opts : list RetryOption)
  (st : state World) (k : nat) :
  (k < 5)%nat ->
  (forall i, (i < k)%nat ->
             fails_retryably (checker (configure opts)) doer (world st) i) ->
  result_of doer k (world st) = err_nil ->
  DoWithRetries Duration Sprintf doer opts st =
    (err_nil,
     {| world := world_after doer (S k) (world st);
        trace :=
          (trace st ++ rounds Duration k (backoff (configure opts))
           ++ [Invoke])%list |}) /\
  invocations (trace (snd (DoWithRetries Duration Sprintf doer opts st))) =
    (invocations (trace st) + S k)%nat /\
  sleeps (trace (snd (DoWithRetries Duration Sprintf doer opts st))) =
    (sleeps (trace st) + k)%nat.
Proof.
  intros Hk Hpre Hres.
  rewrite (DoWithRetries_stopped_run opts st k Hk Hpre)
    by (left; rewrite Hres; reflexivity).
  rewrite Hres. cbn [snd trace].
  rewrite !invocations_app, !sleeps_app, invocations_rounds, sleeps_rounds.
  unfold invocations, sleeps. simpl. repeat split; lia.
Qed.

(** Whatever the operation and the options, a run invokes the operation at
    least once and at most five times, leaves the world as that many
    invocations in a row leave it, keeps the events that were there, and
    sleeps once per invocation or once less; it can sleep once per
    invocation only when it has used up all five. *)
Theorem DoWithRetries_bounds (opts : list RetryOption) (st : state World) :
  exists (n s : nat) (added : list event),
    trace (snd (DoWithRetries Duration Sprintf doer opts st)) =
      (trace st ++ added)%list /\
    invocations added = n /\ sleeps added = s /\
    (1 <= n <= 5)%nat /\ (s <= n <= S s)%nat /\
    (n = 5%nat \/ s < n)%nat /\
    world (snd (DoWithRetries Duration Sprintf doer opts st)) =
      world_after doer n (world st).
Proof.
  destruct (DoWithRetries_run opts st)
    as [[k [Hk [_ [_ Hrun]]]] | [_ Hrun]]; rewrite Hrun; cbn [snd trace world].
  - exists (S k), k,
      (rounds Duration k (backoff (configure opts)) ++ [Invoke])%list.
    rewrite invocations_app, sleeps_app, invocations_rounds, sleeps_rounds.
    unfold invocations, sleeps. simpl. repeat split; lia.
  - exists 5%nat, 5%nat, (rounds Duration 5 (backoff (configure opts))).
    rewrite invocations_rounds, sleeps_rounds. repeat split; lia.
Qed.

(** A run returns nil, or the very error of the invocation it stopped at,
    or the generic too-many-retries error; it returns nil only if that
    invocation returned nil, and an error of the operation only if the
    checker does not call it retryable. *)
Theorem DoWithRetries_outcomes (opts : list RetryOption) (st : state World) :
  (exists k, (k < 5)%nat /\
     fst (DoWithRetries Duration Sprintf doer opts st) =
       result_of doer k (world st) /\
     (result_of doer k (world st) = err_nil \/
      checker (configure opts) (result_of doer k (world st)) = false)) \/
  (fst (DoWithRetries Duration Sprintf doer opts st) =
     err_typed
       (New (VString (Sprintf "too many retries: %v"
                        [to_value (result_of doer 4 (world st))]))) /\
   forall i, (i < 5)%nat ->
             fails_retryably (checker (configure opts)) doer (world st) i).
Proof.
  destruct (DoWithRetries_run opts st)
    as [[k [Hk [_ [Hstop Hrun]]]] | [Hall Hrun]]; rewrite Hrun; cbn [fst].
  - left. exists k. split; [exact Hk |]. split; [reflexivity |].
    destruct Hstop as [Hnil | Hch]; [left | right; exact Hch].
    destruct (result_of doer k (world st)); [reflexivity | |];
      discriminate Hnil.
  - right. split; [reflexivity | exact Hall].
Qed.

(** Without a checker option only errors of type [Error] with the
    Retryable flag are retried: any other failure of the first call, be it
    of another type or of type [Error] without that flag, comes back at
    once after one invocation and no sleep, whatever backoff options were
    given. *)
Theorem DoWithRetries_default_checker (opts : list RetryOption)
  (st : state World) (err : error) :
  Forall backoff_option opts ->
  result_of doer 0 (world st) = err ->
  (forall e : Error, err = err_typed e -> IsRetryableErr e = false) ->
  DoWithRetries Duration Sprintf doer opts st =
    (err,
     {| world := world_after doer 1 (world st);
        trace := (trace st ++ [Invoke])%list |}).
Proof.
  intros Hopts Hres Hflag.
  destruct (configure_backoff_options opts Hopts) as [Hch _].
  rewrite (DoWithRetries_stopped_run opts st 0).
  - rewrite Hres. reflexivity.
  - lia.
  - intros i Hi. lia.
  - unfold stops. rewrite Hch, Hres.
    destruct err as [| e | msg].
    + left. reflexivity.
    + right. apply (Hflag e). reflexivity.
    + right. reflexivity.
Qed.

End DriverRuns.

Section DriverBackoff.

Variable World : Type.
Variable Sprintf : string -> list value -> string.
Variable doer : World -> error * World.

(** Two loops that differ in their backoff only run in step. *)
Lemma attempts_same_checker
  (D1 D2 : backoff.Backoff -> time.Duration * backoff.Backoff) (n : nat) :
  forall (conf1 conf2 : RetryConfig) (err : error) (st1 st2 : state World),
    checker conf1 = checker conf2 ->
    world st1 = world st2 ->
    map is_invoke (trace st1) = map is_invoke (trace st2) ->
    fst (attempts D1 Sprintf doer n conf1 err st1) =
      fst (attempts D2 Sprintf doer n conf2 err st2) /\
    world (snd (attempts D1 Sprintf doer n conf1 err st1)) =
      world (snd (attempts D2 Sprintf doer n conf2 err st2)) /\
    map is_invoke (trace (snd (attempts D1 Sprintf doer n conf1 err st1))) =
      map is_invoke (trace (snd (attempts D2 Sprintf doer n conf2 err st2))).
Proof.
  induction n as [| n IH]; intros conf1 conf2 err st1 st2 Hch Hw Htr.
  - simpl. repeat split; assumption.
  - simpl. unfold call. rewrite <- Hw, <- Hch.
    destruct (doer (world st1)) as [e w].
    assert (Hinv : map is_invoke (trace st1 ++ [Invoke]) =
                   map is_invoke (trace st2 ++ [Invoke]))
      by (rewrite !map_app, Htr; reflexivity).
    destruct e as [| e | msg]; [repeat split; assumption | |];
      (destruct (checker conf1 _); cbn [negb];
       [| repeat split; assumption];
       destruct (D1 (backoff conf1)) as [d1 b1];
       destruct (D2 (backoff conf2)) as [d2 b2];
       apply IH;
       [ reflexivity | reflexivity
       | unfold time_Sleep; cbn [trace];
         rewrite (map_app is_invoke (trace st1 ++ [Invoke])),
           (map_app is_invoke (trace st2 ++ [Invoke])), Hinv;
         reflexivity ]).
Qed.

(** The backoff decides how long the driver sleeps and nothing else: with
    any backoff options and any delays drawn, the run returns what the run
    without options returns, leaves the same world, and invokes and sleeps
    in the same order. *)
Theorem DoWithRetries_backoff_only_delays
  (D1 D2 : backoff.Backoff -> time.Duration * backoff.Backoff)
  (opts : list RetryOption) (st : state World) :
  Forall backoff_option opts ->
  fst (DoWithRetries D1 Sprintf doer opts st) =
    fst (DoWithRetries D2 Sprintf doer [] st) /\
  world (snd (DoWithRetries D1 Sprintf doer opts st)) =
    world (snd (DoWithRetries D2 Sprintf doer [] st)) /\
  map is_invoke (trace (snd (DoWithRetries D1 Sprintf doer opts st))) =
    map is_invoke (trace (snd (DoWithRetries D2 Sprintf doer [] st))).
Proof.
  intro Hopts. unfold DoWithRetries.
  apply attempts_same_checker; try reflexivity.
  destruct (configure_backoff_options opts Hopts) as [Hch _].
  rewrite Hch. reflexivity.
Qed.

(** A driver wrapped around a driver: when the inner one uses up its five
    attempts, the error it returns carries no Retryable flag, so the outer
    one, left with the default checker, does not retry; the operation is
    invoked five times in all and the outer driver never sleeps. *)
Theorem DoWithRetries_nested
  (D D' : backoff.Backoff -> time.Duration * backoff.Backoff)
  (opts opts' : list RetryOption) (st : state (state World)) :
  (forall i, (i < 5)%nat ->
             fails_retryably (checker (configure opts)) doer
               (world (world st)) i) ->
  Forall backoff_option opts' ->
  DoWithRetries D' Sprintf (DoWithRetries D Sprintf doer opts) opts' st =
    (err_typed
       (Newf Sprintf "too many retries: %v"
          [to_value (result_of doer 4 (world (world st)))]),
     {| world :=
          {| world := world_after doer 5 (world (world st));
             trace :=
               (trace (world st)
                ++ rounds D 5 (backoff (configure opts)))%list |};
        trace := (trace st ++ [Invoke])%list |}).
Proof.
  intros Hfail Hopts'.
  destruct (configure_backoff_options opts' Hopts') as [Hch _].
  pose proof (DoWithRetries_exhausted_run World D Sprintf doer opts
                (world st) Hfail) as Hinner.
  rewrite (DoWithRetries_stopped_run (state World) D' Sprintf
             (DoWithRetries D Sprintf doer opts) opts' st 0).
  - unfold result_of. cbn [world_after]. rewrite Hinner. reflexivity.
  - lia.
  - intros i Hi. lia.
  - unfold stops, result_of. cbn [world_after].
    rewrite Hch, Hinner. right. reflexivity.
Qed.

End DriverBackoff.

Lemma DoWithRetries_succeeds_after_witness :
  (2 < 5)%nat /\
  (forall i, (i < 2)%nat ->
             fails_retryably (checker (configure [])) (flaky 2)
               (world fresh) i) /\
  result_of (flaky 2) 2 (world fresh) = err_nil /\
  DoWithRetries doubling Sprintf_v (flaky 2) [] fresh =
    (err_nil,
     {| world := 3%nat;
        trace := [Invoke; Sleep (2 * time.Second); Invoke;
                  Sleep (4 * time.Second); Invoke] |}) /\
  invocations
    (trace (snd (DoWithRetries doubling Sprintf_v (flaky 2) [] fresh))) =
    3%nat /\
  sleeps (trace (snd (DoWithRetries doubling Sprintf_v (flaky 2) [] fresh))) =
    2%nat.
Proof.
  split; [lia |].
  split; [intros i Hi; apply flaky_fails_retryably; exact Hi |].
  split; [reflexivity |].
  apply (DoWithRetries_succeeds_after nat doubling Sprintf_v (flaky 2) []
           fresh 2).
  - lia.
  - intros i Hi. apply flaky_fails_retryably. exact Hi.
  - reflexivity.
Defined.

Lemma DoWithRetries_default_checker_witness :
  Forall backoff_option [RetryWithMinBackoff time.Second] /\
  result_of (fun n : nat => (err_other "disk full", S n)) 0 (world fresh) =
    err_other "disk full" /\
  (forall e : Error, err_other "disk full" = err_typed e ->
                     IsRetryableErr e = false) /\
  DoWithRetries doubling Sprintf_v
    (fun n : nat => (err_other "disk full", S n))
    [RetryWithMinBackoff time.Second] fresh =
    (err_other "disk full", {| world := 1%nat; trace := [Invoke] |}).
Proof.
  split; [repeat constructor |].
  split; [reflexivity |].
  split; [intros e He; discriminate He |].
  apply (DoWithRetries_default_checker nat doubling Sprintf_v
           (fun n : nat => (err_other "disk full", S n))
           [RetryWithMinBackoff time.Second] fresh (err_other "disk full")).
  - repeat constructor.
  - reflexivity.
  - intros e He. discriminate He.
Defined.

Lemma DoWithRetries_backoff_only_delays_witness :
  Forall backoff_option
    [RetryWithMinBackoff time.Second; RetryWithBackoffJitter true] /\
  fst (DoWithRetries doubling Sprintf_v (flaky 3)
         [RetryWithMinBackoff time.Second; RetryWithBackoffJitter true]
         fresh) =
    fst (DoWithRetries (steady 7) Sprintf_v (flaky 3) [] fresh) /\
  world (snd (DoWithRetries doubling Sprintf_v (flaky 3)
                [RetryWithMinBackoff time.Second;
                 RetryWithBackoffJitter true] fresh)) =
    world (snd (DoWithRetries (steady 7) Sprintf_v (flaky 3) [] fresh)) /\
  map is_invoke
    (trace (snd (DoWithRetries doubling Sprintf_v (flaky 3)
                   [RetryWithMinBackoff time.Second;
                    RetryWithBackoffJitter true] fresh))) =
    map is_invoke
      (trace (snd (DoWithRetries (steady 7) Sprintf_v (flaky 3) [] fresh))).
Proof.
  split; [repeat constructor |].
  apply (DoWithRetries_backoff_only_delays nat Sprintf_v (flaky 3)
           doubling (steady 7)
           [RetryWithMinBackoff time.Second; RetryWithBackoffJitter true]
           fresh).
  repeat constructor.
Defined.

Lemma DoWithRetries_nested_witness :
  (forall i, (i < 5)%nat ->
             fails_retryably (checker (configure [])) (flaky 9)
               (world (world {| world := fresh; trace := [] |})) i) /\
  Forall backoff_option [RetryWithMaxBackoff time.Minute] /\
  DoWithRetries (steady 7) Sprintf_v
    (DoWithRetries doubling Sprintf_v (flaky 9) [])
    [RetryWithMaxBackoff time.Minute] {| world := fresh; trace := [] |} =
    (err_typed (New (VString "too many retries: busy")),
     {| world :=
          {| world := 5%nat;
             trace :=
               [Invoke; Sleep (2 * time.Second);
                Invoke; Sleep (4 * time.Second);
                Invoke; Sleep (8 * time.Second);
                Invoke; Sleep (16 * time.Second);
                Invoke; Sleep (32 * time.Second)] |};
        trace := [Invoke] |}).
Proof.
  split; [intros i Hi; apply flaky_fails_retryably; lia |].
  split; [repeat constructor |].
  apply (DoWithRetries_nested nat Sprintf_v (flaky 9) doubling (steady 7)
           [] [RetryWithMaxBackoff time.Minute]
           {| world := fresh; trace := [] |}).
  - intros i Hi. apply flaky_fails_retryably. lia.
  - repeat constructor.
Defined.
